(** * Right-Dev: the real-time reload server

    A shallow embedding of [RealTimeServer] (services/realTimeServer.ts):
    the static responder [handleRequest], the injected client script, the
    reload broadcast, and the [start]/[stop] life cycle, with the Node
    facilities the class calls ([path], [fs], [mime], [http], [ws],
    [chokidar]) modelled next to it.

    Conventions of the model:
    - a buffer is the [string] of its bytes, and a JavaScript string is
      the [string] of its UTF-8 encoding, which is what [res.end(text)]
      writes; [data.toString()] is [Buffer.toString], a UTF-8 decoder.
      The strings the class searches for and inserts are ASCII, so that
      searching and concatenating on the encoding is searching and
      concatenating on the text; [toLowerCase] is exact on ASCII;
    - [path] is the POSIX implementation;
    - the objects the class holds references to (http server, WebSocket
      server, watcher, sockets) live in a [World] and are named by handles;
      methods are computations over the object's fields and the world that
      may throw;
    - what the class does not decide (the mime table, the disk, the outcome
      of a bind, whether [chokidar.watch] throws, whether the WebSocket
      server's [close()] ends its connections) is a parameter;
    - [console.log] and [console.error] calls are left out. *)

From Stdlib Require Import Ascii String DecimalString NArith.
From stdpp Require Import gmap strings list.

Local Open Scope string_scope.

(** ** Text helpers (JavaScript string operations used by the class) *)

Module Text.

(** [s.startsWith(p)] *)
Definition startsWith (s p : string) : bool := String.prefix p s.

(** [s.endsWith("/")]: the last character of [s] is a slash. *)
Fixpoint endsWithSlash (s : string) : bool :=
  match s with
  | EmptyString => false
  | String c EmptyString => Ascii.eqb c "/"
  | String _ s' => endsWithSlash s'
  end.

(** One character of [toLowerCase], exact on ASCII; other bytes are kept. *)
Definition lowerChar (c : ascii) : ascii :=
  let n := nat_of_ascii c in
  if (65 <=? n)%nat && (n <=? 90)%nat then ascii_of_nat (n + 32) else c.

(** [s.toLowerCase()] *)
Fixpoint toLowerCase (s : string) : string :=
  match s with
  | EmptyString => EmptyString
  | String c s' => String (lowerChar c) (toLowerCase s')
  end.

(** Drop the first [n] characters. *)
Fixpoint dropChars (n : nat) (s : string) : string :=
  match n, s with
  | O, _ => s
  | S n', String _ s' => dropChars n' s'
  | S _, EmptyString => EmptyString
  end.

(** The first occurrence of [pat] in [s], as the text before it and the
    text after it ([s.indexOf(pat)] together with the two slices). *)
Fixpoint findFirst (pat s : string) : option (string * string) :=
  if String.prefix pat s then Some (EmptyString, dropChars (String.length pat) s)
  else match s with
       | EmptyString => None
       | String c s' =>
           match findFirst pat s' with
           | Some (before, after) => Some (String c before, after)
           | None => None
           end
       end.

(** The replacement patterns of [String.prototype.replace] for a string
    pattern: [$$], [$&], [$`] and [$']; any other [$x] is kept as it is. *)
Fixpoint getSubstitution (matched before after repl : string) : string :=
  match repl with
  | EmptyString => EmptyString
  | String "$" (String "$" r) => String "$" (getSubstitution matched before after r)
  | String "$" (String "&" r) => matched ++ getSubstitution matched before after r
  | String "$" (String "`" r) => before ++ getSubstitution matched before after r
  | String "$" (String "'" r) => after ++ getSubstitution matched before after r
  | String c r => String c (getSubstitution matched before after r)
  end.

(** [s.replace(pat, repl)] with a string pattern: only the first
    occurrence is replaced; no occurrence leaves [s] as it is. *)
Definition replace (s pat repl : string) : string :=
  match findFirst pat s with
  | Some (before, after) => before ++ getSubstitution pat before after repl ++ after
  | None => s
  end.

(** [sub] occurs somewhere in [s]. *)
Definition Substring (sub s : string) : Prop :=
  exists before after, s = before ++ sub ++ after.

(** [sub] occurs in [s] at offset [i]. *)
Definition occursAt (sub s : string) (i : nat) : bool :=
  String.prefix sub (dropChars i s).

(** The character [c] occurs in [s]. *)
Fixpoint hasChar (c : ascii) (s : string) : bool :=
  match s with
  | EmptyString => false
  | String d s' => Ascii.eqb c d || hasChar c s'
  end.

(** Template-literal rendering of a non-negative integer: [`${n}`]. *)
Definition ofNumber (n : N) : string := NilZero.string_of_uint (N.to_uint n).

End Text.

(** ** Node's [path] module, POSIX flavour *)

Module Path.

(** The segments of a path between slashes; [current] collects the
    characters of the segment being read, last one first. *)
Fixpoint segmentsFrom (current : list ascii) (s : string) : list string :=
  match s with
  | EmptyString => [string_of_list_ascii (rev current)]
  | String c s' =>
      if Ascii.eqb c "/" then string_of_list_ascii (rev current) :: segmentsFrom [] s'
      else segmentsFrom (c :: current) s'
  end.

Definition segments (s : string) : list string := segmentsFrom [] s.

(** [normalizeString]: [res] is the stack of kept segments, last one
    first.  Empty and [.] segments are skipped; [..] removes the last kept
    segment, or is kept itself when nothing can be removed and the path is
    relative ([allowAboveRoot]). *)
Fixpoint normalizeSegments (allowAboveRoot : bool) (res : list string)
    (segs : list string) : list string :=
  match segs with
  | [] => rev res
  | seg :: rest =>
      if String.eqb seg "" || String.eqb seg "." then
        normalizeSegments allowAboveRoot res rest
      else if String.eqb seg ".." then
        match res with
        | top :: res' =>
            if String.eqb top ".." then
              normalizeSegments allowAboveRoot
                (if allowAboveRoot then ".." :: res else res) rest
            else normalizeSegments allowAboveRoot res' rest
        | [] =>
            normalizeSegments allowAboveRoot
              (if allowAboveRoot then [".."] else []) rest
        end
      else normalizeSegments allowAboveRoot (seg :: res) rest
  end.

Fixpoint joinSegments (segs : list string) : string :=
  match segs with
  | [] => ""
  | [seg] => seg
  | seg :: rest => seg ++ "/" ++ joinSegments rest
  end.

(** [path.normalize(p)] *)
Definition normalize (p : string) : string :=
  if String.eqb p "" then "."
  else
    let isAbsolute := String.prefix "/" p in
    let trailingSeparator := Text.endsWithSlash p in
    let body := joinSegments (normalizeSegments (negb isAbsolute) [] (segments p)) in
    if String.eqb body "" then
      if isAbsolute then "/" else if trailingSeparator then "./" else "."
    else
      (if isAbsolute then "/" else "") ++ body ++ (if trailingSeparator then "/" else "").

(** [path.join(a, b)]: the non-empty arguments joined by a slash, then
    normalized. *)
Definition join (a b : string) : string :=
  if String.eqb a "" then (if String.eqb b "" then "." else normalize b)
  else if String.eqb b "" then normalize a
  else normalize (a ++ "/" ++ b).

(** State of the backward scan of [path.extname]. *)
Record ExtScan := {
  startDot : option nat;   (* index of the last dot of the last segment *)
  extEnd : option nat;     (* one past the last non-slash character *)
  matchedSlash : bool;
  preDotState : Z;
  startPart : nat;
  stopped : bool
}.

Definition extScanInit : ExtScan :=
  {| startDot := None; extEnd := None; matchedSlash := true;
     preDotState := 0; startPart := 0; stopped := false |}.

(** One iteration of the [for (i = length - 1; i >= 0; --i)] loop. *)
Definition extScanStep (st : ExtScan) (i : nat) (c : ascii) : ExtScan :=
  if stopped st then st
  else if Ascii.eqb c "/" then
    if negb (matchedSlash st) then
      {| startDot := startDot st; extEnd := extEnd st; matchedSlash := matchedSlash st;
         preDotState := preDotState st; startPart := S i; stopped := true |}
    else st
  else
    let e := match extEnd st with None => Some (S i) | some => some end in
    let m := match extEnd st with None => false | Some _ => matchedSlash st end in
    if Ascii.eqb c "." then
      match startDot st with
      | None =>
          {| startDot := Some i; extEnd := e; matchedSlash := m;
             preDotState := preDotState st; startPart := startPart st; stopped := false |}
      | Some _ =>
          {| startDot := startDot st; extEnd := e; matchedSlash := m;
             preDotState := 1; startPart := startPart st; stopped := false |}
      end
    else
      match startDot st with
      | Some _ =>
          {| startDot := startDot st; extEnd := e; matchedSlash := m;
             preDotState := (-1); startPart := startPart st; stopped := false |}
      | None =>
          {| startDot := None; extEnd := e; matchedSlash := m;
             preDotState := preDotState st; startPart := startPart st; stopped := false |}
      end.

(** The loop over the characters from the last to the first; [chars] is
    the path reversed and [n] the number of characters left. *)
Fixpoint extScan (st : ExtScan) (chars : list ascii) (n : nat) : ExtScan :=
  match chars, n with
  | c :: chars', S i => extScan (extScanStep st i c) chars' i
  | _, _ => st
  end.

(** [p.slice(from, to)] *)
Definition slice (p : string) (from to : nat) : string :=
  String.substring from (to - from) p.

(** [path.extname(p)] *)
Definition extname (p : string) : string :=
  let st := extScan extScanInit (rev (list_ascii_of_string p)) (String.length p) in
  match startDot st, extEnd st with
  | Some d, Some e =>
      if (preDotState st =? 0)%Z
         || ((preDotState st =? 1)%Z && (d =? e - 1)%nat && (d =? startPart st + 1)%nat)
      then ""
      else slice p d e
  | _, _ => ""
  end.

End Path.

(** ** The [mime] package: [getType] over its extension table *)

Module Mime.

Fixpoint anyChar (p : ascii -> bool) (s : string) : bool :=
  match s with
  | EmptyString => false
  | String c s' => p c || anyChar p s'
  end.

(** [s.replace(/^.*X/, '')] for a one-character class [X], on text
    without line breaks: the text after the last character satisfying [p],
    or [s] itself when there is none. *)
Fixpoint afterLast (p : ascii -> bool) (s : string) : string :=
  match s with
  | EmptyString => EmptyString
  | String c s' =>
      if anyChar p s' then afterLast p s'
      else if p c then s' else String c s'
  end.

Definition isSlash (c : ascii) : bool := Ascii.eqb c "/" || Ascii.eqb c "\".
Definition isDot (c : ascii) : bool := Ascii.eqb c ".".

(** [mime.getType(path)]; [types] is the package's extension table. *)
Definition getType (types : gmap string string) (path : string) : option string :=
  let last := Text.toLowerCase (afterLast isSlash path) in
  let ext := Text.toLowerCase (afterLast isDot last) in
  let hasPath := (String.length last <? String.length path)%nat in
  let hasDot := (String.length ext + 1 <? String.length last)%nat in
  if hasDot || negb hasPath then types !! ext else None.

(** Some entries of the package's standard table. *)
Definition standardTypes : gmap string string :=
  list_to_map
    [("html", "text/html"); ("htm", "text/html"); ("shtml", "text/html");
     ("css", "text/css"); ("json", "application/json"); ("txt", "text/plain");
     ("png", "image/png"); ("svg", "image/svg+xml")].

End Mime.

(** ** Buffers: [Buffer.prototype.toString] *)

Module Buffer.

(** U+FFFD, the replacement character, in UTF-8. *)
Definition replacementCharacter : string :=
  String (ascii_of_nat 239) (String (ascii_of_nat 191) (String (ascii_of_nat 189) "")).

Definition between (lo hi : nat) (b : ascii) : bool :=
  (lo <=? nat_of_ascii b)%nat && (nat_of_ascii b <=? hi)%nat.

(** A multi-byte sequence that is being read: its bytes so far, the number
    of bytes still to come, and the range the next byte has to lie in. *)
Record Partial := {
  seen : string;
  needed : nat;
  lower : nat;
  upper : nat
}.

(** A byte read while no sequence is open: the text it gives at once, and
    the sequence it opens.  Bytes [C0], [C1] and [F5] to [FF] start no
    sequence, nor does a continuation byte. *)
Definition first (b : ascii) : string * option Partial :=
  let n := nat_of_ascii b in
  if (n <=? 127)%nat then (String b "", None)
  else if (194 <=? n)%nat && (n <=? 223)%nat then
    ("", Some {| seen := String b ""; needed := 1; lower := 128; upper := 191 |})
  else if (224 <=? n)%nat && (n <=? 239)%nat then
    ("", Some {| seen := String b ""; needed := 2;
                 lower := if (n =? 224)%nat then 160 else 128;
                 upper := if (n =? 237)%nat then 159 else 191 |})
  else if (240 <=? n)%nat && (n <=? 244)%nat then
    ("", Some {| seen := String b ""; needed := 3;
                 lower := if (n =? 240)%nat then 144 else 128;
                 upper := if (n =? 244)%nat then 143 else 191 |})
  else (replacementCharacter, None).

(** The decoder: a well-formed sequence is kept; a sequence that a byte
    breaks off, or that the end of the buffer cuts short, becomes one
    replacement character, and the byte that broke it off is read again
    as a first byte. *)
Fixpoint decode (open : option Partial) (bytes : string) : string :=
  match bytes with
  | EmptyString =>
      match open with
      | Some _ => replacementCharacter
      | None => EmptyString
      end
  | String b rest =>
      match open with
      | None => fst (first b) ++ decode (snd (first b)) rest
      | Some u =>
          if between (lower u) (upper u) b then
            match needed u with
            | S (S k) =>
                decode (Some {| seen := seen u ++ String b ""; needed := S k;
                                lower := 128; upper := 191 |}) rest
            | _ => (seen u ++ String b "") ++ decode None rest
            end
          else replacementCharacter ++ fst (first b) ++ decode (snd (first b)) rest
      end
  end.

(** [buffer.toString()], as the text's UTF-8 encoding. *)
Definition toString (bytes : string) : string := decode None bytes.

(** Well-formed UTF-8 (the Unicode standard's table of well-formed byte
    sequences). *)
Fixpoint wellFormed (bytes : string) : bool :=
  match bytes with
  | EmptyString => true
  | String b rest =>
      let n := nat_of_ascii b in
      if (n <=? 127)%nat then wellFormed rest
      else if (194 <=? n)%nat && (n <=? 223)%nat then
        match rest with
        | String b1 rest1 => between 128 191 b1 && wellFormed rest1
        | _ => false
        end
      else if (224 <=? n)%nat && (n <=? 239)%nat then
        match rest with
        | String b1 (String b2 rest2) =>
            between (if (n =? 224)%nat then 160 else 128)
                    (if (n =? 237)%nat then 159 else 191) b1
            && between 128 191 b2 && wellFormed rest2
        | _ => false
        end
      else if (240 <=? n)%nat && (n <=? 244)%nat then
        match rest with
        | String b1 (String b2 (String b3 rest3)) =>
            between (if (n =? 240)%nat then 144 else 128)
                    (if (n =? 244)%nat then 143 else 191) b1
            && between 128 191 b2 && between 128 191 b3 && wellFormed rest3
        | _ => false
        end
      else false
  end.

End Buffer.

(** ** The file system, as [fs.existsSync] and [fs.readFile] see it *)

Record FileSystem := {
  existsSync : string -> bool;
  readFile : string -> option string   (* the buffer read; [None]: the
                                          read reported an error *)
}.

(** A disk holding exactly the regular files of [files]. *)
Definition diskOf (files : gmap string string) : FileSystem :=
  {| existsSync := fun p => bool_decide (is_Some (files !! p));
     readFile := fun p => files !! p |}.

(** ** The server object *)

(** Handles of the objects the class holds references to. *)
Definition HttpHandle := nat.
Definition WssHandle := nat.
Definition WatcherHandle := nat.
Definition SocketHandle := nat.

(** The fields of [RealTimeServer]; [clients] is the [Set<WebSocket>] in
    insertion order. *)
Record RealTimeServer := {
  server : option HttpHandle;
  wss : option WssHandle;
  clients : list SocketHandle;
  watcher : option WatcherHandle;
  rootPath : string;
  port : N;
  entryFile : string;
  isRunning : bool
}.

(** [new RealTimeServer(rootPath, port, entryFile)] *)
Definition newRealTimeServer (root : string) (p : N) (entry : string) : RealTimeServer :=
  {| server := None; wss := None; clients := []; watcher := None;
     rootPath := root; port := p; entryFile := entry; isRunning := false |}.

Record Response := {
  status : nat;
  contentType : string;
  body : string
}.

(** [getWebSocketClientScript] *)
Definition getWebSocketClientScript (s : RealTimeServer) : string :=
  "
<script>
(function() {
    const ws = new WebSocket('ws://localhost:" ++ Text.ofNumber (port s) ++ "');
    ws.onmessage = function(event) {
        if (event.data === 'reload') {
            location.reload();
        }
    };
    ws.onopen = function() {
        console.log('Real-time reload connected');
    };
    ws.onclose = function() {
        console.log('Real-time reload disconnected');
    };
})();
</script>".

(** [a || b] on a possibly-null string. *)
Definition orElse (a : option string) (b : string) : string :=
  match a with Some x => x | None => b end.

(** The path [handleRequest] computes first: [/] stands for the entry
    file, a missing url for the empty string. *)
Definition requestPath (s : RealTimeServer) (url : option string) : string :=
  Path.join (rootPath s)
    (match url with
     | Some u => if String.eqb u "/" then entryFile s else u
     | None => ""
     end).

(** The callback of [fs.readFile] in [handleRequest]: an [.html] file is
    sent as text, its buffer decoded and the script put in; any other file
    is sent as the buffer read. *)
Definition sendFile (types : gmap string string) (s : RealTimeServer)
    (filePath : string) (read : option string) : Response :=
  match read with
  | None =>
      {| status := 500; contentType := "text/plain"; body := "Internal server error" |}
  | Some data =>
      if String.eqb (Text.toLowerCase (Path.extname filePath)) ".html" then
        let contentType := orElse (Mime.getType types filePath) "text/html" in
        let injectedScript := getWebSocketClientScript s in
        let htmlContent :=
          Text.replace (Buffer.toString data) "</body>" (injectedScript ++ "</body>") in
        {| status := 200; contentType := contentType; body := htmlContent |}
      else
        let contentType := orElse (Mime.getType types filePath) "application/octet-stream" in
        {| status := 200; contentType := contentType; body := data |}
  end.

(** [handleRequest]: the response written for request url [url].  No call
    in the body throws on these arguments, so the [catch] branch (a 500
    response) is never taken. *)
Definition handleRequest (types : gmap string string) (fs : FileSystem)
    (s : RealTimeServer) (url : option string) : Response :=
  let filePath := requestPath s url in
  if negb (Text.startsWith filePath (rootPath s)) then
    {| status := 403; contentType := "text/plain"; body := "Forbidden" |}
  else if negb (existsSync fs filePath) then
    let fallbackPath := Path.join (rootPath s) "index.html" in
    if existsSync fs fallbackPath then
      sendFile types s fallbackPath (readFile fs fallbackPath)
    else
      {| status := 404; contentType := "text/plain"; body := "File not found" |}
  else sendFile types s filePath (readFile fs filePath).

(** ** The objects behind the handles: http servers, WebSocket servers,
       watchers and sockets *)

Inductive ReadyState := CONNECTING | OPEN | CLOSING | CLOSED.

Definition readyStateEqb (a b : ReadyState) : bool :=
  match a, b with
  | CONNECTING, CONNECTING | OPEN, OPEN | CLOSING, CLOSING | CLOSED, CLOSED => true
  | _, _ => false
  end.

(** A [WebSocket] object: its [readyState], whether its transport still
    carries frames, and the WebSocket server that accepted it. *)
Record Socket := {
  readyState : ReadyState;
  transportUp : bool;
  acceptedBy : WssHandle
}.

Inductive HttpState :=
| HttpCreated                  (* [http.createServer] returned *)
| HttpBinding (requested : N)  (* [listen] called, no event yet *)
| HttpListening (bound : N)
| HttpClosed.

Record World := {
  httpServers : list HttpState;
  wsServers : list bool;                     (* [true] until [close()] *)
  watchers : list bool;                      (* [true] while watching *)
  sockets : list Socket;
  delivered : list (SocketHandle * string);  (* frames that reached a client *)
  writeErrors : list SocketHandle            (* writes that failed, reported later *)
}.

Definition emptyWorld : World :=
  {| httpServers := []; wsServers := []; watchers := []; sockets := [];
     delivered := []; writeErrors := [] |}.

Definition Error := string.

(** What the operating system answers to a bind request. *)
Inductive BindResult :=
| BindOk (actualPort : N)        (* [listening]: the callback runs without argument *)
| BindCallbackError (e : Error)  (* the callback runs with an error argument,
                                   the [if (err)] branch of [start]; Node's
                                   [listen] does not do so *)
| BindErrorEvent (e : Error).    (* an [error] event; the callback never runs *)

(** The behaviour of the environment that the class does not decide. *)
Record Runtime := {
  watchError : option Error;       (* [chokidar.watch] throws this *)
  bindPort : N -> BindResult;
  closeTerminatesClients : bool    (* does [WebSocket.Server.close()] terminate
                                      the connections it accepted (ws before 8)
                                      or leave them alone (ws 8 and later) *)
}.

(** ** Computations over the object and the world, with exceptions *)

Definition State : Type := RealTimeServer * World.
Definition M (A : Type) : Type := State -> (Error + A) * State.

Definition ret {A} (a : A) : M A := fun st => (inr a, st).
Definition bind {A B} (m : M A) (k : A -> M B) : M B :=
  fun st => match m st with
            | (inl e, st') => (inl e, st')
            | (inr a, st') => k a st'
            end.
Definition throw {A} (e : Error) : M A := fun st => (inl e, st).
Definition tryCatch {A} (m : M A) (handler : Error -> M A) : M A :=
  fun st => match m st with
            | (inl e, st') => handler e st'
            | r => r
            end.
Definition getThis : M RealTimeServer := fun st => (inr (fst st), st).
Definition getWorld : M World := fun st => (inr (snd st), st).
Definition setThis (f : RealTimeServer -> RealTimeServer) : M unit :=
  fun st => (inr tt, (f (fst st), snd st)).
Definition setWorld (f : World -> World) : M unit :=
  fun st => (inr tt, (fst st, f (snd st))).

Notation "'let*' x ':=' m 'in' k" := (bind m (fun x => k))
  (at level 10, x name, m at level 100, k at level 200).
Notation "m ';;' k" := (bind m (fun _ => k))
  (at level 100, k at level 200, right associativity).

(** Field assignments [this.f = v]. *)
Definition setServer (v : option HttpHandle) (s : RealTimeServer) : RealTimeServer :=
  {| server := v; wss := wss s; clients := clients s; watcher := watcher s;
     rootPath := rootPath s; port := port s; entryFile := entryFile s;
     isRunning := isRunning s |}.
Definition setWss (v : option WssHandle) (s : RealTimeServer) : RealTimeServer :=
  {| server := server s; wss := v; clients := clients s; watcher := watcher s;
     rootPath := rootPath s; port := port s; entryFile := entryFile s;
     isRunning := isRunning s |}.
Definition setClients (v : list SocketHandle) (s : RealTimeServer) : RealTimeServer :=
  {| server := server s; wss := wss s; clients := v; watcher := watcher s;
     rootPath := rootPath s; port := port s; entryFile := entryFile s;
     isRunning := isRunning s |}.
Definition setWatcher (v : option WatcherHandle) (s : RealTimeServer) : RealTimeServer :=
  {| server := server s; wss := wss s; clients := clients s; watcher := v;
     rootPath := rootPath s; port := port s; entryFile := entryFile s;
     isRunning := isRunning s |}.
Definition setIsRunning (v : bool) (s : RealTimeServer) : RealTimeServer :=
  {| server := server s; wss := wss s; clients := clients s; watcher := watcher s;
     rootPath := rootPath s; port := port s; entryFile := entryFile s;
     isRunning := v |}.

(** Updates of the world's tables. *)
Definition withHttpServers (v : list HttpState) (w : World) : World :=
  {| httpServers := v; wsServers := wsServers w; watchers := watchers w;
     sockets := sockets w; delivered := delivered w; writeErrors := writeErrors w |}.
Definition withWsServers (v : list bool) (w : World) : World :=
  {| httpServers := httpServers w; wsServers := v; watchers := watchers w;
     sockets := sockets w; delivered := delivered w; writeErrors := writeErrors w |}.
Definition withWatchers (v : list bool) (w : World) : World :=
  {| httpServers := httpServers w; wsServers := wsServers w; watchers := v;
     sockets := sockets w; delivered := delivered w; writeErrors := writeErrors w |}.
Definition withSockets (v : list Socket) (w : World) : World :=
  {| httpServers := httpServers w; wsServers := wsServers w; watchers := watchers w;
     sockets := v; delivered := delivered w; writeErrors := writeErrors w |}.
Definition withDelivered (v : list (SocketHandle * string)) (w : World) : World :=
  {| httpServers := httpServers w; wsServers := wsServers w; watchers := watchers w;
     sockets := sockets w; delivered := v; writeErrors := writeErrors w |}.
Definition withWriteErrors (v : list SocketHandle) (w : World) : World :=
  {| httpServers := httpServers w; wsServers := wsServers w; watchers := watchers w;
     sockets := sockets w; delivered := delivered w; writeErrors := v |}.

(** ** Library calls *)

Module Lib.

(** [http.createServer(handler)] *)
Definition createServer : M HttpHandle :=
  let* w := getWorld in
  setWorld (withHttpServers (httpServers w ++ [HttpCreated])) ;;
  ret (length (httpServers w)).

(** [new WebSocket.Server({ server })] *)
Definition newWebSocketServer (h : HttpHandle) : M WssHandle :=
  let* w := getWorld in
  setWorld (withWsServers (wsServers w ++ [true])) ;;
  ret (length (wsServers w)).

(** [chokidar.watch(root, options)] *)
Definition watch (rt : Runtime) (root : string) : M WatcherHandle :=
  match watchError rt with
  | Some e => throw e
  | None =>
      let* w := getWorld in
      setWorld (withWatchers (watchers w ++ [true])) ;;
      ret (length (watchers w))
  end.

(** [server.listen(port, callback)]: a port above 65535 is refused at the
    call; otherwise the bind is requested and its outcome arrives later. *)
Definition listen (h : HttpHandle) (p : N) : M unit :=
  if (65535 <? p)%N then throw "ERR_SOCKET_BAD_PORT"
  else
    let* w := getWorld in
    setWorld (withHttpServers (<[h := HttpBinding p]> (httpServers w))).

(** [server.address().port]; [None] when the server is not listening. *)
Definition addressPort (h : HttpHandle) (w : World) : option N :=
  match httpServers w !! h with
  | Some (HttpListening p) => Some p
  | _ => None
  end.

(** [watcher.close()] *)
Definition closeWatcher (h : WatcherHandle) : M unit :=
  let* w := getWorld in
  setWorld (withWatchers (<[h := false]> (watchers w))).

(** [ws.terminate()] on one socket. *)
Definition terminated (k : Socket) : Socket :=
  {| readyState := CLOSED; transportUp := false; acceptedBy := acceptedBy k |}.

(** [wss.close()]: the server stops accepting; whether the sockets it
    accepted are terminated depends on the library version. *)
Definition closeWebSocketServer (rt : Runtime) (h : WssHandle) : M unit :=
  let* w := getWorld in
  setWorld (withWsServers (<[h := false]> (wsServers w))) ;;
  if closeTerminatesClients rt then
    setWorld (withSockets
      (map (fun k => if Nat.eqb (acceptedBy k) h then terminated k else k) (sockets w)))
  else ret tt.

(** [server.close()]: no new connection is accepted; upgraded sockets are
    not touched. *)
Definition closeServer (h : HttpHandle) : M unit :=
  let* w := getWorld in
  setWorld (withHttpServers (<[h := HttpClosed]> (httpServers w))).

(** [client.readyState] *)
Definition readyStateOf (c : SocketHandle) (w : World) : option ReadyState :=
  readyState <$> sockets w !! c.

(** [client.send(data)] without callback: throws unless the socket is
    open; on an open socket the frame is written, and a failing write is
    reported later through the socket's [error] event, not by an exception. *)
Definition send (c : SocketHandle) (data : string) : M unit :=
  let* w := getWorld in
  match sockets w !! c with
  | Some k =>
      match readyState k with
      | OPEN =>
          if transportUp k then setWorld (withDelivered (delivered w ++ [(c, data)]))
          else setWorld (withWriteErrors (writeErrors w ++ [c]))
      | _ => throw "WebSocket is not open"
      end
  | None => throw "WebSocket is not open"
  end.

End Lib.

(** ** The methods of [RealTimeServer] *)

(** [Set.prototype.add] and [Set.prototype.delete] on the client set. *)
Definition setAdd (c : SocketHandle) (l : list SocketHandle) : list SocketHandle :=
  if bool_decide (c ∈ l) then l else l ++ [c].
Definition setDelete (c : SocketHandle) (l : list SocketHandle) : list SocketHandle :=
  filter (fun x => x ≠ c) l.

(** [setupFileWatcher] *)
Definition setupFileWatcher (rt : Runtime) : M unit :=
  let* s := getThis in
  let* h := Lib.watch rt (rootPath s) in
  setThis (setWatcher (Some h)).

(** [clients.forEach(client => { if (client.readyState === OPEN) client.send('reload') })] *)
Fixpoint forEachClient (cs : list SocketHandle) : M unit :=
  match cs with
  | [] => ret tt
  | client :: rest =>
      let* w := getWorld in
      (match Lib.readyStateOf client w with
       | Some OPEN => Lib.send client "reload"
       | _ => ret tt
       end) ;;
      forEachClient rest
  end.

(** [broadcastReload] *)
Definition broadcastReload : M unit :=
  let* s := getThis in
  forEachClient (clients s).

(** The watcher's [change] handler. *)
Definition onChange (filePath : string) : M unit := broadcastReload.

(** The [connection] handler of the WebSocket server: a socket accepted by
    server [h] is created open and added to the client set. *)
Definition onConnection (h : WssHandle) : M SocketHandle :=
  let* w := getWorld in
  let ws := length (sockets w) in
  setWorld (withSockets (sockets w ++
    [{| readyState := OPEN; transportUp := true; acceptedBy := h |}])) ;;
  let* s := getThis in
  setThis (setClients (setAdd ws (clients s))) ;;
  ret ws.

(** The [close] and [error] handlers of a socket. *)
Definition onSocketClose (ws : SocketHandle) : M unit :=
  let* s := getThis in
  setThis (setClients (setDelete ws (clients s))).

(** The promise returned by [start]. *)
Inductive StartOutcome :=
| Resolved (actualPort : N)
| Rejected (e : Error)
| Pending.

(** [start] up to and including the call of [listen]: the part that runs
    before the promise is handed to the caller.  The result is the http
    server whose bind is awaited; an exception rejects the promise, be it
    rethrown by the [catch] block or raised by [listen] inside the promise
    executor. *)
Definition startSetup (rt : Runtime) : M HttpHandle :=
  let* s := getThis in
  if isRunning s then throw "Real-time server is already running"
  else
    tryCatch
      (let* h := Lib.createServer in
       setThis (setServer (Some h)) ;;
       let* hw := Lib.newWebSocketServer h in
       setThis (setWss (Some hw)) ;;
       setupFileWatcher rt ;;
       let* s := getThis in
       Lib.listen h (port s) ;;
       ret h)
      (fun error => throw error).

(** The callback given to [listen]. *)
Definition listenCallback (err : option Error) : M StartOutcome :=
  match err with
  | Some e => ret (Rejected e)
  | None =>
      setThis (setIsRunning true) ;;
      let* s := getThis in
      let* w := getWorld in
      match server s with
      | Some h =>
          match Lib.addressPort h w with
          | Some actualPort => ret (Resolved actualPort)
          | None => ret Pending   (* [address()] is null: the callback throws *)
          end
      | None => ret Pending
      end
  end.

(** The outcome of the bind requested for server [h] arrives. *)
Definition listenEvent (rt : Runtime) (h : HttpHandle) : M StartOutcome :=
  let* w := getWorld in
  match httpServers w !! h with
  | Some (HttpBinding requested) =>
      match bindPort rt requested with
      | BindOk actualPort =>
          setWorld (withHttpServers (<[h := HttpListening actualPort]> (httpServers w))) ;;
          listenCallback None
      | BindCallbackError e => listenCallback (Some e)
      | BindErrorEvent e => ret Pending
      end
  | _ => ret Pending
  end.

(** [start], with nothing else happening between the call and the bind. *)
Definition start (rt : Runtime) (st : State) : StartOutcome * State :=
  match startSetup rt st with
  | (inl e, st') => (Rejected e, st')
  | (inr h, st') =>
      match listenEvent rt h st' with
      | (inr o, st'') => (o, st'')
      | (inl e, st'') => (Pending, st'')
      end
  end.

(** [stop] *)
Definition stop (rt : Runtime) : M unit :=
  let* s := getThis in
  if negb (isRunning s) then ret tt
  else
    tryCatch
      ((match watcher s with
        | Some h => Lib.closeWatcher h ;; setThis (setWatcher None)
        | None => ret tt
        end) ;;
       (match wss s with
        | Some h => Lib.closeWebSocketServer rt h ;; setThis (setWss None)
        | None => ret tt
        end) ;;
       (match server s with
        | Some h => Lib.closeServer h ;; setThis (setServer None)
        | None => ret tt
        end) ;;
       setThis (setClients []) ;;
       setThis (setIsRunning false))
      (fun error => throw error).

(** [getIsRunning], [getPort], [getUrl] *)
Definition getIsRunning (s : RealTimeServer) : bool := isRunning s.
Definition getPort (s : RealTimeServer) : N := port s.
Definition getUrl (s : RealTimeServer) : string := "http://localhost:" ++ Text.ofNumber (port s).

(** The file [handleRequest] goes on to read, if any: the requested file
    when it passes the root check and exists, else [index.html] under the
    root when that exists. *)
Definition servedPath (fs : FileSystem) (s : RealTimeServer) (url : option string)
    : option string :=
  let filePath := requestPath s url in
  if negb (Text.startsWith filePath (rootPath s)) then None
  else if existsSync fs filePath then Some filePath
  else
    let fallbackPath := Path.join (rootPath s) "index.html" in
    if existsSync fs fallbackPath then Some fallbackPath else None.

(** [p] is the directory [root] or lies below it. *)
Definition insideRoot (root p : string) : bool :=
  String.eqb p root || String.prefix (root ++ "/") p.

(** The document with the script placed in front of the first closing
    body tag, or the document itself when it has none. *)
Definition withScript (script data : string) : string :=
  match Text.findFirst "</body>" data with
  | Some (before, after) => before ++ script ++ "</body>" ++ after
  | None => data
  end.

(** The socket [c] is in the open state. *)
Definition isOpen (w : World) (c : SocketHandle) : bool :=
  match Lib.readyStateOf c w with Some OPEN => true | _ => false end.

(** The transport of socket [c] carries frames. *)
Definition carries (w : World) (c : SocketHandle) : bool :=
  match sockets w !! c with Some k => transportUp k | None => false end.

(** Among [cs], the open clients a frame reaches, and the open clients
    whose write fails. *)
Definition receivers (w : World) (cs : list SocketHandle) : list SocketHandle :=
  List.filter (fun c => isOpen w c && carries w c) cs.
Definition failures (w : World) (cs : list SocketHandle) : list SocketHandle :=
  List.filter (fun c => isOpen w c && negb (carries w c)) cs.

(** One reload frame for each handle of [cs]. *)
Definition reloadsFor (cs : list SocketHandle) : list (SocketHandle * string) :=
  map (fun c => (c, "reload")) cs.

(** The object as [stop] leaves it. *)
Definition stoppedServer (s : RealTimeServer) : RealTimeServer :=
  {| server := None; wss := None; clients := []; watcher := None;
     rootPath := rootPath s; port := port s; entryFile := entryFile s;
     isRunning := false |}.

(** ** Path helpers of the command (utils/pathUtils.ts), where
       [process.platform] is not [win32] *)

Module PathUtils.

(** [s.replace(/c/g, d)] for single characters. *)
Fixpoint replaceChar (from to : ascii) (s : string) : string :=
  match s with
  | EmptyString => EmptyString
  | String c s' =>
      String (if Ascii.eqb c from then to else c) (replaceChar from to s')
  end.

(** [normalizeFilePath] *)
Definition normalizeFilePath (filePath : string) : string :=
  let normalizedPath := Path.normalize filePath in
  replaceChar "\" "/" normalizedPath.

(** The character class of [hasSpecialCharacters]. *)
Definition specialChars : list ascii :=
  [" "; "("; ")"; "+"; "#"; "$"; "&"; "'"; ";"; "="; "?"; "@"; "["; "]";
   "{"; "}"; "|"; "\"; "/"; "^"; "~"; "`"]%char.

Definition isSpecialChar (c : ascii) : bool := existsb (Ascii.eqb c) specialChars.

(** [hasSpecialCharacters] *)
Definition hasSpecialCharacters (filePath : string) : bool :=
  Mime.anyChar isSpecialChar filePath.

(** [escapePathForTerminal] *)
Definition escapePathForTerminal (filePath : string) : string :=
  if hasSpecialCharacters filePath then "'" ++ filePath ++ "'" else filePath.

End PathUtils.

(** ** The status bar (providers/statusBarProvider.ts) *)

Module StatusBar.

Inductive DevServerStatus :=
| Idle | Detecting | Installing | Starting | Running | Error | Stopped.

(** The editor's status bar item, as far as the provider sets it. *)
Record StatusBarItem := {
  text : string;
  tooltip : string;
  backgroundColor : option string;   (* the id of a theme colour *)
  command : string;
  visible : bool
}.

Record StatusBarProvider := {
  statusBarItem : StatusBarItem;
  currentStatus : DevServerStatus;
  currentPort : option N;
  currentProjectType : string
}.

(** [updateStatusBarText]: text, tooltip and background for the current
    status.  A port that is null or 0, and an empty project type, are
    left out of the Running text. *)
Definition updateStatusBarText (p : StatusBarProvider) : StatusBarProvider :=
  let portText :=
    match currentPort p with
    | Some n => if (n =? 0)%N then "" else " @" ++ Text.ofNumber n
    | None => ""
    end in
  let projectText :=
    if String.eqb (currentProjectType p) "" then "" else " " ++ currentProjectType p in
  let '(text, tooltip, backgroundColor) :=
    match currentStatus p with
    | Idle => ("$(play) Right Dev", "点击启动开发服务器", None)
    | Detecting => ("$(sync~spin) 检测项目类型...", "正在检测项目类型", None)
    | Installing => ("$(sync~spin) 安装依赖...", "正在安装项目依赖", None)
    | Starting => ("$(sync~spin) 启动服务...", "正在启动开发服务器", None)
    | Running =>
        ("$(play-circle)" ++ projectText ++ portText,
         "开发服务器运行中" ++ portText ++ "
点击显示菜单",
         None)
    | Error =>
        ("$(error) 启动失败", "开发服务器启动失败，点击查看详情",
         Some "statusBarItem.errorBackground")
    | Stopped => ("$(stop) 已停止", "开发服务器已停止", None)
    end in
  {| statusBarItem :=
       {| text := text; tooltip := tooltip; backgroundColor := backgroundColor;
          command := command (statusBarItem p); visible := visible (statusBarItem p) |};
     currentStatus := currentStatus p;
     currentPort := currentPort p;
     currentProjectType := currentProjectType p |}.

(** [updateStatus(status, port?, projectType?)]: a port that is given
    replaces the stored one, a project type that is given and not empty
    replaces the stored one. *)
Definition updateStatus (status : DevServerStatus) (port : option N)
    (projectType : option string) (p : StatusBarProvider) : StatusBarProvider :=
  updateStatusBarText
    {| statusBarItem := statusBarItem p;
       currentStatus := status;
       currentPort := match port with Some n => Some n | None => currentPort p end;
       currentProjectType :=
         match projectType with
         | Some t => if String.eqb t "" then currentProjectType p else t
         | None => currentProjectType p
         end |}.

(** [new StatusBarProvider()] *)
Definition newStatusBarProvider : StatusBarProvider :=
  let created :=
    {| statusBarItem := {| text := ""; tooltip := ""; backgroundColor := None;
                           command := "right-dev.showMenu"; visible := false |};
       currentStatus := Idle; currentPort := None; currentProjectType := "" |} in
  let p := updateStatus Idle None None created in
  {| statusBarItem :=
       {| text := text (statusBarItem p); tooltip := tooltip (statusBarItem p);
          backgroundColor := backgroundColor (statusBarItem p);
          command := command (statusBarItem p); visible := true |};
     currentStatus := currentStatus p;
     currentPort := currentPort p;
     currentProjectType := currentProjectType p |}.

(** [getStatus] and [isRunning] *)
Definition getStatus (p : StatusBarProvider) : DevServerStatus := currentStatus p.
Definition isRunning (p : StatusBarProvider) : bool :=
  match currentStatus p with Running => true | _ => false end.

(** A sequence of [updateStatus] calls, first call first. *)
Definition updates (calls : list (DevServerStatus * option N * option string))
    (p : StatusBarProvider) : StatusBarProvider :=
  fold_left (fun p '(status, port, projectType) => updateStatus status port projectType p)
            calls p.

End StatusBar.

(** ** The command object (commands/startDev.ts): [stop], [dispose] and
       [handleError], with [TerminalService.disposeTerminal] *)

Module Command.

(** What the editor is made to do. *)
Inductive UiEffect :=
| ShowInformationMessage (message : string)
| ShowErrorMessage (message : string)
| SetContext (key : string) (value : bool)   (* [executeCommand('setContext', key, value)] *)
| DisposeTerminal (terminal : nat).          (* [terminal.dispose()] carried out *)

(** The fields of [StartDevCommand] that the three methods touch. *)
Record StartDevCommand := {
  statusBarProvider : StatusBar.StatusBarProvider;
  isRunning : bool;
  currentTerminal : option nat;
  currentPort : option N;
  currentProjectType : string;
  realTimeServer : option RealTimeServer
}.

(** The command, the world its real-time server lives in, and the calls
    made so far. *)
Definition CommandState : Type := StartDevCommand * World * list UiEffect.

(** What the command does not decide: the runtime of the real-time server
    and whether the editor's [terminal.dispose()] throws. *)
Record Environment := {
  runtime : Runtime;
  disposeTerminalError : option Error
}.

(** [TerminalService.disposeTerminal]: [terminal.dispose()] inside a
    [try] whose [catch] only logs, so that the call always returns. *)
Definition disposeTerminal (env : Environment) (terminal : nat)
    (ui : list UiEffect) : list UiEffect :=
  match disposeTerminalError env with
  | Some _ => ui
  | None => (ui ++ [DisposeTerminal terminal])%list
  end.

(** [if (this.currentTerminal) { disposeTerminal(...); this.currentTerminal = null; }] *)
Definition releaseTerminal (env : Environment) (st : CommandState) : CommandState :=
  let '(c, w, ui) := st in
  match currentTerminal c with
  | Some terminal =>
      ({| statusBarProvider := statusBarProvider c; isRunning := isRunning c;
          currentTerminal := None; currentPort := currentPort c;
          currentProjectType := currentProjectType c;
          realTimeServer := realTimeServer c |},
       w, disposeTerminal env terminal ui)
  | None => st
  end.

(** [if (this.realTimeServer) { this.realTimeServer.stop(); this.realTimeServer = null; }]
    The result is the exception thrown, if any, and the state reached. *)
Definition releaseServer (env : Environment) (st : CommandState)
    : option Error * CommandState :=
  let '(c, w, ui) := st in
  match realTimeServer c with
  | Some srv =>
      match stop (runtime env) (srv, w) with
      | (inl e, (srv', w')) =>
          (Some ("Error: " ++ e),
           ({| statusBarProvider := statusBarProvider c; isRunning := isRunning c;
               currentTerminal := currentTerminal c; currentPort := currentPort c;
               currentProjectType := currentProjectType c;
               realTimeServer := Some srv' |},
            w', ui))
      | (inr _, (_, w')) =>
          (None,
           ({| statusBarProvider := statusBarProvider c; isRunning := isRunning c;
               currentTerminal := currentTerminal c; currentPort := currentPort c;
               currentProjectType := currentProjectType c;
               realTimeServer := None |},
            w', ui))
      end
  | None => (None, st)
  end.

(** The terminal, then the server: the common part of [stop] and [dispose]. *)
Definition releaseBoth (env : Environment) (st : CommandState)
    : option Error * CommandState :=
  releaseServer env (releaseTerminal env st).

(** [StartDevCommand.stop] *)
Definition stop (env : Environment) (st : CommandState) : CommandState :=
  let '(c, w, ui) := st in
  if negb (isRunning c) then
    (c, w, (ui ++ [ShowInformationMessage "没有正在运行的开发服务器"])%list)
  else
    match releaseBoth env st with
    | (Some e, (c', w', ui')) =>
        (c', w', (ui' ++ [ShowErrorMessage ("停止服务失败: " ++ e)])%list)
    | (None, (c2, w2, ui2)) =>
        ({| statusBarProvider :=
              StatusBar.updateStatus StatusBar.Stopped None None (statusBarProvider c2);
            isRunning := false;
            currentTerminal := currentTerminal c2;
            currentPort := None;
            currentProjectType := "";
            realTimeServer := realTimeServer c2 |},
         w2,
         (ui2 ++ [SetContext "right-dev.isRunning" false;
                  ShowInformationMessage "开发服务器已停止"])%list)
    end.

(** [StartDevCommand.dispose]; an exception leaves the method at once and
    reaches the caller. *)
Definition dispose (env : Environment) (st : CommandState)
    : option Error * CommandState :=
  match releaseBoth env st with
  | (Some e, st') => (Some e, st')
  | (None, (c2, w2, ui2)) =>
      (None,
       ({| statusBarProvider := statusBarProvider c2; isRunning := false;
           currentTerminal := currentTerminal c2; currentPort := currentPort c2;
           currentProjectType := currentProjectType c2;
           realTimeServer := realTimeServer c2 |},
        w2, ui2))
  end.

(** [StartDevCommand.handleError]; [errorMessage] is the error's message. *)
Definition handleError (errorMessage : string) (st : CommandState) : CommandState :=
  let '(c, w, ui) := st in
  ({| statusBarProvider :=
        StatusBar.updateStatus StatusBar.Error None None (statusBarProvider c);
      isRunning := false;
      currentTerminal := currentTerminal c;
      currentPort := currentPort c;
      currentProjectType := currentProjectType c;
      realTimeServer := realTimeServer c |},
   w,
   (ui ++ [SetContext "right-dev.isRunning" false;
           ShowErrorMessage ("Right-Dev: " ++ errorMessage)])%list).

End Command.

(** ** Concrete disks, sessions and runtimes used below *)

Definition siteDisk : FileSystem :=
  diskOf (list_to_map
    [("/srv/app/index.html", "<html><body>Hi</body></html>");
     ("/srv/app/style.css", "body{}");
     ("/srv/app/page.htm", "<html><body>Old</body></html>");
     ("/srv/app/plain.html", "<p>no closing tag");
     ("/srv/app/twice.html", "<body>a</body><body>b</body>");
     ("/srv/app-secret/key.txt", "secret")]).

Definition mainOnlyDisk : FileSystem :=
  diskOf (list_to_map [("/srv/app/main.html", "<html><body>Main</body></html>")]).

(** A disk whose [raw.html] is the four bytes [3c 70 3e ff]: the text
    [<p>] and a byte that is not UTF-8; [accent.html] is well-formed UTF-8
    with a two-byte character. *)
Definition rawDisk : FileSystem :=
  diskOf (list_to_map
    [("/srv/app/raw.html", "<p>" ++ String (ascii_of_nat 255) "");
     ("/srv/app/accent.html",
      "<p>caf" ++ String (ascii_of_nat 195) (String (ascii_of_nat 169) "") ++ "</p>")]).

Definition siteServer : RealTimeServer := newRealTimeServer "/srv/app" 5500 "index.html".
Definition mainServer : RealTimeServer := newRealTimeServer "/srv/app" 5500 "main.html".

(** The session the command starts in Real-time mode on the file
    [page.htm]. *)
Definition htmServer : RealTimeServer := newRealTimeServer "/srv/app" 5500 "page.htm".

(** A runtime where the operating system picks port 49152 for a request
    of port 0 and grants any other port, and the WebSocket server's
    [close()] leaves its connections alone. *)
Definition nodeRuntime : Runtime :=
  {| watchError := None;
     bindPort := fun p => if (p =? 0)%N then BindOk 49152 else BindOk p;
     closeTerminatesClients := false |}.

(** A runtime where every bind fails with an [error] event, as Node
    reports a port in use. *)
Definition errorEventRuntime : Runtime :=
  {| watchError := None;
     bindPort := fun _ => BindErrorEvent "EADDRINUSE";
     closeTerminatesClients := false |}.

(** The state after [start] on a fresh object in an empty world. *)
Definition startedState (rt : Runtime) (s : RealTimeServer) : State :=
  snd (start rt (s, emptyWorld)).

(** The state after one more browser tab connected to server [h]. *)
Definition connected (h : WssHandle) (st : State) : State := snd (onConnection h st).

(** A running session with two browser tabs connected. *)
Definition twoTabs : State :=
  connected 0 (connected 0 (startedState nodeRuntime siteServer)).

(** A session whose [start] has called [listen] and awaits the bind. *)
Definition startingState : State :=
  snd (startSetup nodeRuntime (siteServer, emptyWorld)).

(** A session whose [start] met a bind error. *)
Definition failedStart : State :=
  startedState errorEventRuntime siteServer.

(** A session asked for a port that [listen] refuses, and the state its
    [start] leaves. *)
Definition badPortServer : RealTimeServer := newRealTimeServer "/srv/app" 70000 "index.html".

Definition refusedStart : State :=
  startedState nodeRuntime badPortServer.

(** Three registered clients: one open with a dead transport, one closed,
    one open and well. *)
Definition mixedWorld : World :=
  {| httpServers := [HttpListening 5500]; wsServers := [true]; watchers := [true];
     sockets := [ {| readyState := OPEN; transportUp := false; acceptedBy := 0 |};
                  {| readyState := CLOSED; transportUp := false; acceptedBy := 0 |};
                  {| readyState := OPEN; transportUp := true; acceptedBy := 0 |} ];
     delivered := []; writeErrors := [] |}.

Definition mixedServer : RealTimeServer :=
  {| server := Some 0; wss := Some 0; clients := [0; 1; 2]; watcher := Some 0;
     rootPath := "/srv/app"; port := 5500; entryFile := "index.html";
     isRunning := true |}.

(** A session asked for port 0. *)
Definition anyPortServer : RealTimeServer := newRealTimeServer "/srv/app" 0 "index.html".

(** A path segment that [normalize] keeps as it is: not empty, not [.]
    or [..], and without a slash. *)
Definition ordinarySegment (seg : string) : bool :=
  negb (String.eqb seg "") && negb (String.eqb seg ".") && negb (String.eqb seg "..")
  && negb (Text.hasChar "/" seg).

(** An environment of the command: Node's runtime, and an editor whose
    [terminal.dispose()] does not throw. *)
Definition quietEnvironment : Command.Environment :=
  {| Command.runtime := nodeRuntime; Command.disposeTerminalError := None |}.

(** A command that runs the real-time server of [twoTabs] from terminal 7,
    and one left behind by a failed start of the server. *)
Definition runningCommand : Command.StartDevCommand :=
  {| Command.statusBarProvider :=
       StatusBar.updateStatus StatusBar.Running (Some 5500%N) (Some "html")
         StatusBar.newStatusBarProvider;
     Command.isRunning := true;
     Command.currentTerminal := Some 7%nat;
     Command.currentPort := Some 5500%N;
     Command.currentProjectType := "html";
     Command.realTimeServer := Some (fst twoTabs) |}.

Definition failedCommand : Command.StartDevCommand :=
  {| Command.statusBarProvider :=
       StatusBar.updateStatus StatusBar.Error None None StatusBar.newStatusBarProvider;
     Command.isRunning := false;
     Command.currentTerminal := Some 7%nat;
     Command.currentPort := Some 5500%N;
     Command.currentProjectType := "html";
     Command.realTimeServer := Some (fst failedStart) |}.

(** ** Sequences of calls and events *)

(** The [close] event of a socket as the library raises it: the socket is
    closed, then the handler registered in [start] runs. *)
Definition socketCloses (ws : SocketHandle) : M unit :=
  let* w := getWorld in
  setWorld (withSockets
    (match sockets w !! ws with
     | Some k => <[ws := Lib.terminated k]> (sockets w)
     | None => sockets w
     end)) ;;
  onSocketClose ws.

(** What can happen to a session: calls of its methods, and the events
    its handlers are registered for. *)
Inductive Event :=
| CallStart                          (* [start()], up to the call of [listen] *)
| BindOutcome (h : HttpHandle)       (* the bind requested for [h] is answered *)
| CallStop                           (* [stop()] *)
| FileChanged (filePath : string)    (* the watcher's [change] event *)
| Connected (h : WssHandle)          (* the [connection] event of server [h] *)
| SocketClosed (ws : SocketHandle).  (* the [close] event of a socket *)

Definition step (rt : Runtime) (ev : Event) (st : State) : State :=
  match ev with
  | CallStart => snd (startSetup rt st)
  | BindOutcome h => snd (listenEvent rt h st)
  | CallStop => snd (stop rt st)
  | FileChanged filePath => snd (onChange filePath st)
  | Connected h => snd (onConnection h st)
  | SocketClosed ws => snd (socketCloses ws st)
  end.

Definition run (rt : Runtime) (evs : list Event) (st : State) : State :=
  fold_left (fun st ev => step rt ev st) evs st.

(** * Properties *)

(** ** The library models on sample inputs *)

Example join_resolves_dot_segments :
  map (Path.join "/srv/app")
      ["/a/./b//c/"; "/../app-secret/key.txt"; "/../../../../etc/passwd"; "/x/../y"; ""]
  = ["/srv/app/a/b/c/"; "/srv/app-secret/key.txt"; "/etc/passwd"; "/srv/app/y"; "/srv/app"].
Proof. vm_compute. reflexivity. Qed.

Example join_relative_keeps_leading_dotdot : Path.join "a" "../../b" = "../b".
Proof. vm_compute. reflexivity. Qed.

Example extname_samples :
  map Path.extname
      ["index.html"; "index."; "index"; ".index"; ".index.md"; "a.b/c";
       "/x/foo.HTML/"; ".."; "/srv/app/a.tar.gz"]
  = [".html"; "."; ""; ""; ".md"; ""; ".HTML"; ""; ".gz"].
Proof. vm_compute. reflexivity. Qed.

Example replace_first_occurrence_with_patterns :
  Text.replace "a</body>b</body>" "</body>" "X$&$$</body>" = "aX</body>$</body>b</body>".
Proof. vm_compute. reflexivity. Qed.

Example ofNumber_samples :
  map Text.ofNumber [0%N; 5500%N; 49152%N] = ["0"; "5500"; "49152"].
Proof. vm_compute. reflexivity. Qed.

Example getType_samples :
  map (Mime.getType Mime.standardTypes)
      ["/srv/app/style.css"; "/a/b.HTM"; "html"; "/a/html"; "/a/.html"; "/a/b.unknown"]
  = [Some "text/css"; Some "text/html"; Some "text/html"; None; None; None].
Proof. vm_compute. reflexivity. Qed.

(** ** Strings *)

Section TextFacts.

Lemma append_cons (x : ascii) (a b : string) : String x a ++ b = String x (a ++ b).
Proof. reflexivity. Qed.

Lemma append_nil_l (a : string) : "" ++ a = a.
Proof. reflexivity. Qed.

Lemma append_assoc (a b c : string) : (a ++ b) ++ c = a ++ b ++ c.
Proof.
  induction a as [|x a IH]; [reflexivity |].
  rewrite !append_cons. now rewrite IH.
Qed.

Lemma append_nil_r (a : string) : a ++ "" = a.
Proof.
  induction a as [|x a IH]; [reflexivity |].
  rewrite append_cons. now rewrite IH.
Qed.

Lemma length_append (a b : string) :
  String.length (a ++ b) = (String.length a + String.length b)%nat.
Proof.
  induction a as [|x a IH]; [reflexivity |].
  rewrite append_cons. simpl. now rewrite IH.
Qed.

Lemma prefix_append (p rest : string) : String.prefix p (p ++ rest) = true.
Proof.
  induction p as [|x p IH]; [now destruct rest |].
  rewrite append_cons. simpl.
  destruct (ascii_dec x x) as [_|n]; [exact IH | now elim n].
Qed.

Lemma prefix_inv (p s : string) :
  String.prefix p s = true -> exists rest, s = p ++ rest.
Proof.
  revert s; induction p as [|x p IH]; intros s H.
  - now exists s.
  - destruct s as [|y s]; simpl in H; [discriminate |].
    destruct (ascii_dec x y) as [->|]; [| discriminate].
    destruct (IH _ H) as [rest ->]. now exists rest.
Qed.

Lemma dropChars_append (p rest : string) :
  Text.dropChars (String.length p) (p ++ rest) = rest.
Proof.
  induction p as [|x p IH]; [reflexivity |].
  rewrite append_cons. simpl. exact IH.
Qed.

Lemma findFirst_unfold (pat s : string) :
  Text.findFirst pat s =
  if String.prefix pat s then Some ("", Text.dropChars (String.length pat) s)
  else match s with
       | EmptyString => None
       | String c s' =>
           match Text.findFirst pat s' with
           | Some (before, after) => Some (String c before, after)
           | None => None
           end
       end.
Proof. now destruct s. Qed.

Lemma prefix_split (pat s : string) :
  String.prefix pat s = true -> s = pat ++ Text.dropChars (String.length pat) s.
Proof.
  intros H. destruct (prefix_inv _ _ H) as [rest ->].
  now rewrite dropChars_append.
Qed.

(** What [findFirst] returns is an occurrence, and the leftmost one. *)
Lemma findFirst_Some (pat s before after : string) :
  Text.findFirst pat s = Some (before, after) ->
  s = before ++ pat ++ after /\
  forall i, (i < String.length before)%nat -> Text.occursAt pat s i = false.
Proof.
  revert before after; induction s as [|c s IH]; intros before after H;
    rewrite findFirst_unfold in H.
  - destruct (String.prefix pat "") eqn:E; [| discriminate].
    injection H as <- <-. split; [| simpl; lia].
    rewrite append_nil_l. now apply prefix_split.
  - destruct (String.prefix pat (String c s)) eqn:E.
    + injection H as <- <-. split; [| simpl; lia].
      rewrite append_nil_l. now apply prefix_split.
    + destruct (Text.findFirst pat s) as [[b a]|] eqn:F; [| discriminate].
      injection H as <- <-. destruct (IH _ _ eq_refl) as [-> Hmin].
      split; [reflexivity |].
      intros [|i] Hi; [exact E |]. simpl in Hi.
      unfold Text.occursAt; simpl. apply Hmin. lia.
Qed.

Lemma findFirst_None (pat s : string) :
  Text.findFirst pat s = None <-> ~ Text.Substring pat s.
Proof.
  split.
  - induction s as [|c s IH]; intros H [b [a Hs]]; rewrite findFirst_unfold in H.
    + destruct b; [| discriminate]. rewrite append_nil_l in Hs.
      rewrite Hs, prefix_append in H. discriminate.
    + destruct (String.prefix pat (String c s)) eqn:E; [discriminate |].
      destruct b as [|x b]; [rewrite append_nil_l in Hs | rewrite append_cons in Hs].
      * rewrite Hs, prefix_append in E. discriminate.
      * injection Hs as -> Hs.
        destruct (Text.findFirst pat s) as [[b' a']|]; [discriminate |].
        apply IH; [reflexivity |]. now exists b, a.
  - intros H. destruct (Text.findFirst pat s) as [[b a]|] eqn:F; [| reflexivity].
    destruct (findFirst_Some _ _ _ _ F) as [-> _]. elim H. now exists b, a.
Qed.

Lemma hasChar_append (c : ascii) (a b : string) :
  Text.hasChar c (a ++ b) = Text.hasChar c a || Text.hasChar c b.
Proof.
  induction a as [|x a IH]; [reflexivity |].
  rewrite append_cons. simpl. rewrite IH. now destruct (Ascii.eqb c x).
Qed.

(** A replacement text without [$] is inserted as it is. *)
Lemma getSubstitution_plain (matched before after repl : string) :
  Text.hasChar "$" repl = false ->
  Text.getSubstitution matched before after repl = repl.
Proof.
  induction repl as [|c r IH]; intros H; [reflexivity |].
  simpl in H. apply orb_false_iff in H as [Hc Hr].
  assert (Hne : c <> "$"%char).
  { intros ->. discriminate. }
  assert (Hstep : Text.getSubstitution matched before after (String c r)
                  = String c (Text.getSubstitution matched before after r)).
  { destruct c as [[] [] [] [] [] [] [] []]; try reflexivity. now elim Hne. }
  rewrite Hstep, IH; auto.
Qed.

Lemma digits_no_dollar (d : Decimal.uint) :
  Text.hasChar "$" (NilEmpty.string_of_uint d) = false.
Proof. induction d; simpl; auto. Qed.

Lemma ofNumber_no_dollar (n : N) : Text.hasChar "$" (Text.ofNumber n) = false.
Proof.
  unfold Text.ofNumber, NilZero.string_of_uint.
  destruct (N.to_uint n); try apply digits_no_dollar. reflexivity.
Qed.

End TextFacts.

(** ** Paths *)

Section PathFacts.

Lemma segmentsFrom_slash (current : list ascii) (a b : string) :
  Path.segmentsFrom current (a ++ String "/" b)
  = (Path.segmentsFrom current a ++ Path.segmentsFrom [] b)%list.
Proof.
  revert current; induction a as [|x a IH]; intros current.
  - reflexivity.
  - rewrite append_cons. simpl. destruct (Ascii.eqb x "/"); simpl; now rewrite IH.
Qed.

Lemma normalizeSegments_app (allow : bool) (res l1 l2 : list string) :
  Path.normalizeSegments allow res (l1 ++ l2)
  = Path.normalizeSegments allow (rev (Path.normalizeSegments allow res l1)) l2.
Proof.
  revert res; induction l1 as [|seg l1 IH]; intros res; simpl.
  - now rewrite rev_involutive.
  - destruct (String.eqb seg "" || String.eqb seg "."); [apply IH |].
    destruct (String.eqb seg ".."); [| apply IH].
    destruct res as [|top res]; [apply IH |].
    destruct (String.eqb top ".."); apply IH.
Qed.

Lemma joinSegments_snoc (l : list string) (x : string) :
  Path.joinSegments (l ++ [x])
  = match l with [] => x | _ => Path.joinSegments l ++ "/" ++ x end.
Proof.
  induction l as [|y l IH]; [reflexivity |].
  change ((y :: l) ++ [x])%list with (y :: (l ++ [x]))%list.
  destruct l as [|z l]; [reflexivity |].
  change (Path.joinSegments (y :: (z :: l) ++ [x]))
    with (y ++ "/" ++ Path.joinSegments ((z :: l) ++ [x])).
  rewrite IH.
  change (Path.joinSegments (y :: z :: l)) with (y ++ "/" ++ Path.joinSegments (z :: l)).
  now rewrite !append_assoc.
Qed.

Lemma endsWithSlash_append (a : string) (c : ascii) (b : string) :
  Text.endsWithSlash (a ++ String c b) = Text.endsWithSlash (String c b).
Proof.
  induction a as [|x a IH]; [reflexivity |].
  rewrite append_cons.
  change (Text.endsWithSlash (String x (a ++ String c b)))
    with (match a ++ String c b with
          | EmptyString => Ascii.eqb x "/"
          | _ => Text.endsWithSlash (a ++ String c b)
          end).
  destruct (a ++ String c b) eqn:E; [| exact IH].
  destruct a; discriminate.
Qed.

Lemma append_eqb_nil (a : string) (c : ascii) (b : string) :
  String.eqb (a ++ String c b) "" = false.
Proof. destruct a; reflexivity. Qed.

(** Joining [index.html] onto any root gives a path whose last segment is
    [index.html]. *)
Lemma join_index_html (root : string) :
  exists pre, Path.join root "index.html" = pre ++ "index.html"
              /\ (pre = "" \/ exists q, pre = q ++ "/").
Proof.
  unfold Path.join.
  destruct (String.eqb root "") eqn:Eroot.
  - exists "". split; [reflexivity | now left].
  - change (String.eqb "index.html" "") with false. cbv iota.
    change (root ++ "/" ++ "index.html") with (root ++ String "/" "index.html").
    unfold Path.normalize.
    rewrite append_eqb_nil, endsWithSlash_append.
    change (Text.endsWithSlash (String "/" "index.html")) with false.
    unfold Path.segments. rewrite segmentsFrom_slash, normalizeSegments_app.
    set (allow := negb _).
    set (kept := Path.normalizeSegments allow [] (Path.segmentsFrom [] root)).
    change (Path.segmentsFrom [] "index.html") with ["index.html"].
    change (Path.normalizeSegments allow (rev kept) ["index.html"])
      with (rev ("index.html" :: rev kept)).
    change (rev ("index.html" :: rev kept)) with (rev (rev kept) ++ ["index.html"])%list.
    rewrite rev_involutive, joinSegments_snoc.
    set (lead := if String.prefix "/" (root ++ String "/" "index.html") then "/" else "").
    destruct kept as [|k kept'].
    + change (String.eqb "index.html" "") with false. cbv iota.
      exists lead. split; [now rewrite append_nil_r |].
      subst lead. destruct (String.prefix _ _); [right; now exists "" | now left].
    + set (j := Path.joinSegments (k :: kept')).
      change (j ++ "/" ++ "index.html") with (j ++ String "/" "index.html").
      rewrite append_eqb_nil.
      exists (lead ++ j ++ "/"). split.
      * rewrite append_nil_r, !append_assoc. reflexivity.
      * right. exists (lead ++ j). now rewrite append_assoc.
Qed.

Lemma extScan_stopped (st : Path.ExtScan) (chars : list ascii) (n : nat) :
  Path.stopped st = true -> Path.extScan st chars n = st.
Proof.
  revert st n; induction chars as [|c chars IH]; intros st n H; [reflexivity |].
  destruct n as [|i]; [reflexivity |]. simpl.
  assert (Hs : Path.extScanStep st i c = st) by (unfold Path.extScanStep; now rewrite H).
  rewrite Hs. now apply IH.
Qed.

Lemma list_ascii_append (a b : string) :
  list_ascii_of_string (a ++ b)
  = (list_ascii_of_string a ++ list_ascii_of_string b)%list.
Proof.
  induction a as [|x a IH]; [reflexivity |].
  rewrite append_cons. simpl. now rewrite IH.
Qed.

Lemma substring_skip (a b : string) (k m : nat) :
  String.substring (String.length a + k) m (a ++ b) = String.substring k m b.
Proof.
  induction a as [|x a IH]; [reflexivity |].
  rewrite append_cons. simpl. exact IH.
Qed.

Lemma extname_index_html (pre : string) :
  pre = "" \/ (exists q, pre = q ++ "/") ->
  Path.extname (pre ++ "index.html") = ".html".
Proof.
  intros [-> | [q ->]]; [reflexivity |].
  rewrite append_assoc.
  change ("/" ++ "index.html") with "/index.html".
  unfold Path.extname.
  rewrite list_ascii_append, rev_app_distr, length_append.
  rewrite Nat.add_comm.
  set (n := String.length q).
  change (String.length "/index.html" + n)%nat
    with (S (S (S (S (S (S (S (S (S (S (S n))))))))))).
  change (rev (list_ascii_of_string "/index.html"))
    with ["l"; "m"; "t"; "h"; "."; "x"; "e"; "d"; "n"; "i"; "/"]%char.
  cbn [app Path.extScan].
  rewrite extScan_stopped by reflexivity.
  cbn.
  unfold Path.slice.
  replace (S (S (S (S (S (S (S (S (S (S (S n)))))))))) - S (S (S (S (S (S n))))))%nat
    with 5%nat by lia.
  replace (S (S (S (S (S (S n)))))) with (String.length q + 6)%nat by (subst n; lia).
  now rewrite substring_skip.
Qed.

Lemma anyChar_append (p : ascii -> bool) (a b : string) :
  Mime.anyChar p (a ++ b) = Mime.anyChar p a || Mime.anyChar p b.
Proof.
  induction a as [|x a IH]; [reflexivity |].
  rewrite append_cons. simpl. rewrite IH. now destruct (p x).
Qed.

Lemma afterLast_append (p : ascii -> bool) (a : string) (c : ascii) (b : string) :
  p c = true -> Mime.anyChar p b = false ->
  Mime.afterLast p (a ++ String c b) = b.
Proof.
  intros Hc Hb. induction a as [|x a IH].
  - rewrite append_nil_l. simpl. now rewrite Hb, Hc.
  - rewrite append_cons. simpl.
    rewrite anyChar_append. simpl. rewrite Hc, orb_true_r. exact IH.
Qed.

Lemma getType_index_html (types : gmap string string) (pre : string) :
  pre = "" \/ (exists q, pre = q ++ "/") ->
  Mime.getType types (pre ++ "index.html") = types !! "html".
Proof.
  intros [-> | [q ->]]; [reflexivity |].
  rewrite append_assoc.
  change ("/" ++ "index.html") with (String "/" "index.html").
  unfold Mime.getType.
  rewrite afterLast_append by reflexivity.
  reflexivity.
Qed.

End PathFacts.

(** ** The UTF-8 decoder *)

Section BufferFacts.

Lemma decode_first (b : ascii) (rest : string) :
  Buffer.decode None (String b rest)
  = fst (Buffer.first b) ++ Buffer.decode (snd (Buffer.first b)) rest.
Proof. reflexivity. Qed.

Lemma wellFormed_decode_upto (n : nat) (bytes : string) :
  (String.length bytes <= n)%nat ->
  Buffer.wellFormed bytes = true ->
  Buffer.decode None bytes = bytes.
Proof.
  revert bytes. induction n as [|n IH]; intros bytes Hlen Hwf.
  - destruct bytes; [reflexivity | simpl in Hlen; lia].
  - destruct bytes as [|b0 rest]; [reflexivity |].
    rewrite decode_first. unfold Buffer.first.
    cbn [Buffer.wellFormed] in Hwf. cbv zeta in Hwf. cbv zeta.
    simpl String.length in Hlen.
    destruct (nat_of_ascii b0 <=? 127)%nat.
    { cbn [fst snd]. rewrite IH by (assumption || lia). reflexivity. }
    destruct ((194 <=? nat_of_ascii b0)%nat && (nat_of_ascii b0 <=? 223)%nat).
    { destruct rest as [|b1 rest1]; [discriminate |].
      apply andb_true_iff in Hwf as [H1 Hwf].
      simpl String.length in Hlen.
      cbn [fst snd Buffer.decode Buffer.lower Buffer.upper Buffer.needed Buffer.seen].
      rewrite H1, IH by (assumption || lia). reflexivity. }
    destruct ((224 <=? nat_of_ascii b0)%nat && (nat_of_ascii b0 <=? 239)%nat).
    { destruct rest as [|b1 [|b2 rest2]]; try discriminate.
      apply andb_true_iff in Hwf as [Hwf H3].
      apply andb_true_iff in Hwf as [H1 H2].
      simpl String.length in Hlen.
      cbn [fst snd Buffer.decode Buffer.lower Buffer.upper Buffer.needed Buffer.seen].
      rewrite H1.
      cbn [fst snd Buffer.decode Buffer.lower Buffer.upper Buffer.needed Buffer.seen].
      rewrite H2, IH by (assumption || lia). reflexivity. }
    destruct ((240 <=? nat_of_ascii b0)%nat && (nat_of_ascii b0 <=? 244)%nat);
      [| discriminate].
    destruct rest as [|b1 [|b2 [|b3 rest3]]]; try discriminate.
    apply andb_true_iff in Hwf as [Hwf H4].
    apply andb_true_iff in Hwf as [Hwf H3].
    apply andb_true_iff in Hwf as [H1 H2].
    simpl String.length in Hlen.
    cbn [fst snd Buffer.decode Buffer.lower Buffer.upper Buffer.needed Buffer.seen].
    rewrite H1.
    cbn [fst snd Buffer.decode Buffer.lower Buffer.upper Buffer.needed Buffer.seen].
    rewrite H2.
    cbn [fst snd Buffer.decode Buffer.lower Buffer.upper Buffer.needed Buffer.seen].
    rewrite H3, IH by (assumption || lia). reflexivity.
Qed.

(** Decoding keeps a buffer of well-formed UTF-8 as it is. *)
Lemma toString_wellFormed (bytes : string) :
  Buffer.wellFormed bytes = true -> Buffer.toString bytes = bytes.
Proof. apply (wellFormed_decode_upto (String.length bytes)). lia. Qed.

End BufferFacts.

Example toString_keeps_two_byte_character :
  Buffer.toString ("caf" ++ String (ascii_of_nat 195) (String (ascii_of_nat 169) ""))
  = "caf" ++ String (ascii_of_nat 195) (String (ascii_of_nat 169) "").
Proof. vm_compute. reflexivity. Qed.

Example toString_replaces_stray_byte :
  Buffer.toString ("<p>" ++ String (ascii_of_nat 255) "")
  = "<p>" ++ Buffer.replacementCharacter.
Proof. vm_compute. reflexivity. Qed.

(** A sequence cut short is one replacement character; an overlong
    encoding is one for each of its bytes. *)
Example toString_truncated_and_overlong :
  Buffer.toString (String (ascii_of_nat 240) (String (ascii_of_nat 159)
                     (String (ascii_of_nat 146) "a")))
  = Buffer.replacementCharacter ++ "a"
  /\ Buffer.toString (String (ascii_of_nat 192) (String (ascii_of_nat 175) ""))
     = Buffer.replacementCharacter ++ Buffer.replacementCharacter.
Proof. split; vm_compute; reflexivity. Qed.

(** ** The static responder *)

Section Responder.

Variable types : gmap string string.
Variable fs : FileSystem.
Variable s : RealTimeServer.

Lemma script_plain : Text.hasChar "$" (getWebSocketClientScript s ++ "</body>") = false.
Proof.
  unfold getWebSocketClientScript.
  rewrite !hasChar_append, ofNumber_no_dollar. reflexivity.
Qed.

(** The [replace] call of [handleRequest] puts the script in front of the
    first [</body>] and nowhere else. *)
Lemma replace_injects (data : string) :
  Text.replace data "</body>" (getWebSocketClientScript s ++ "</body>")
  = withScript (getWebSocketClientScript s) data.
Proof.
  unfold Text.replace, withScript.
  destruct (Text.findFirst "</body>" data) as [[before after]|]; [| reflexivity].
  rewrite getSubstitution_plain by apply script_plain.
  now rewrite append_assoc.
Qed.

Lemma findFirst_leftmost (pat before after : string) :
  (forall i, (i < String.length before)%nat ->
             Text.occursAt pat (before ++ pat ++ after) i = false) ->
  Text.findFirst pat (before ++ pat ++ after) = Some (before, after).
Proof.
  induction before as [|c b IH]; intros Hmin.
  - rewrite append_nil_l, findFirst_unfold, prefix_append.
    now rewrite dropChars_append.
  - rewrite append_cons, findFirst_unfold.
    assert (H0 : String.prefix pat (String c (b ++ pat ++ after)) = false).
    { apply (Hmin 0%nat). simpl. lia. }
    rewrite H0, IH; [reflexivity |].
    intros i Hi. apply (Hmin (S i)). simpl. lia.
Qed.

Lemma handleRequest_served (url : option string) (p : string) :
  servedPath fs s url = Some p ->
  handleRequest types fs s url = sendFile types s p (readFile fs p).
Proof.
  unfold servedPath, handleRequest.
  destruct (negb (Text.startsWith (requestPath s url) (rootPath s))); [discriminate |].
  destruct (existsSync fs (requestPath s url)); simpl.
  - now intros [= <-].
  - destruct (existsSync fs (Path.join (rootPath s) "index.html")); [| discriminate].
    now intros [= <-].
Qed.

(** A path that does not start with the root string is refused. *)
Lemma handleRequest_forbidden (url : option string) :
  Text.startsWith (requestPath s url) (rootPath s) = false ->
  handleRequest types fs s url
  = {| status := 403; contentType := "text/plain"; body := "Forbidden" |}.
Proof. unfold handleRequest. now intros ->. Qed.

End Responder.

Section ResponderClaims.

Variable types : gmap string string.
Variable fs : FileSystem.
Variable s : RealTimeServer.

Lemma sendFile_index_html (data : string) :
  sendFile types s (Path.join (rootPath s) "index.html") (Some data)
  = {| status := 200;
       contentType := orElse (types !! "html") "text/html";
       body := withScript (getWebSocketClientScript s) (Buffer.toString data) |}.
Proof.
  destruct (join_index_html (rootPath s)) as [pre [-> Hpre]].
  unfold sendFile.
  rewrite (extname_index_html _ Hpre), (getType_index_html _ _ Hpre).
  change (String.eqb (Text.toLowerCase ".html") ".html") with true. cbv iota.
  now rewrite replace_injects.
Qed.

(** C2, as the code has it: when the requested path passes the root
    check and does not exist, the responder falls back to [index.html]
    under the root, whatever the session's entry file is.  It answers 404
    when [index.html] does not exist, 200 with [index.html]'s content (its
    text, the script inserted before its first closing body tag) when it
    exists and can be read, and 500 when it exists and cannot be read. *)
Theorem missing_file_falls_back_to_index_html (url : option string) :
  Text.startsWith (requestPath s url) (rootPath s) = true ->
  existsSync fs (requestPath s url) = false ->
  handleRequest types fs s url =
    if existsSync fs (Path.join (rootPath s) "index.html") then
      match readFile fs (Path.join (rootPath s) "index.html") with
      | Some data =>
          {| status := 200;
             contentType := orElse (types !! "html") "text/html";
             body := withScript (getWebSocketClientScript s) (Buffer.toString data) |}
      | None =>
          {| status := 500; contentType := "text/plain"; body := "Internal server error" |}
      end
    else {| status := 404; contentType := "text/plain"; body := "File not found" |}.
Proof.
  intros Hin Hmiss. unfold handleRequest. rewrite Hin, Hmiss. simpl.
  destruct (existsSync fs (Path.join (rootPath s) "index.html")); [| reflexivity].
  destruct (readFile fs (Path.join (rootPath s) "index.html")) as [data|]; [| reflexivity].
  apply sendFile_index_html.
Qed.

(** What is sent for a file the responder serves: status 200; when the
    file's lower-cased extension is [.html], its text with the client
    script in front of the first closing body tag (Content-Type from the
    mime table, [text/html] by default); with any other extension, the
    extension [.htm] among them, the buffer as it was read (Content-Type
    from the mime table, [application/octet-stream] by default). *)
Lemma served_file_response (url : option string) (p data : string) :
  servedPath fs s url = Some p ->
  readFile fs p = Some data ->
  handleRequest types fs s url =
    if String.eqb (Text.toLowerCase (Path.extname p)) ".html" then
      {| status := 200;
         contentType := orElse (Mime.getType types p) "text/html";
         body := withScript (getWebSocketClientScript s) (Buffer.toString data) |}
    else
      {| status := 200;
         contentType := orElse (Mime.getType types p) "application/octet-stream";
         body := data |}.
Proof.
  intros Hserved Hread.
  rewrite (handleRequest_served _ _ _ _ _ Hserved), Hread.
  unfold sendFile.
  destruct (String.eqb (Text.toLowerCase (Path.extname p)) ".html"); [| reflexivity].
  now rewrite replace_injects.
Qed.

(** C10, as the code has it: a served [.html] file is answered 200 with
    its text, which is its content decoded as UTF-8: the content itself
    when that is well-formed UTF-8.  A text without [</body>] is sent
    unchanged, nothing inserted; in a text with one or more [</body>] the
    script goes in front of the first occurrence and the rest is kept as
    it is. *)
Theorem html_script_before_first_body_tag_only (url : option string) (p data : string) :
  servedPath fs s url = Some p ->
  readFile fs p = Some data ->
  Text.toLowerCase (Path.extname p) = ".html" ->
  status (handleRequest types fs s url) = 200
  /\ (Buffer.wellFormed data = true -> Buffer.toString data = data)
  /\ (~ Text.Substring "</body>" (Buffer.toString data) ->
       body (handleRequest types fs s url) = Buffer.toString data)
  /\ (forall before after,
        Buffer.toString data = before ++ "</body>" ++ after ->
        (forall i, (i < String.length before)%nat ->
                   Text.occursAt "</body>" (Buffer.toString data) i = false) ->
        body (handleRequest types fs s url)
        = before ++ getWebSocketClientScript s ++ "</body>" ++ after).
Proof.
  intros Hserved Hread Hext.
  rewrite (handleRequest_served _ _ _ _ _ Hserved), Hread.
  unfold sendFile. rewrite Hext.
  change (String.eqb ".html" ".html") with true. cbv iota.
  rewrite replace_injects. cbn [status body].
  split; [reflexivity |]. split; [apply toString_wellFormed |]. split.
  - intros Hnone. apply findFirst_None in Hnone.
    unfold withScript. now rewrite Hnone.
  - intros before after Hdata Hmin. rewrite Hdata in Hmin |- *.
    unfold withScript. now rewrite (findFirst_leftmost _ _ _ Hmin).
Qed.

End ResponderClaims.

(** ** The responder on concrete disks *)

(** C1 fails on the code: the root check compares strings, so a path that
    leaves the root into a sibling directory whose name starts with the
    root's name is served.  With root [/srv/app], the url
    [/../app-secret/key.txt] resolves to [/srv/app-secret/key.txt], outside
    the root, and the file is answered with status 200. *)
Theorem traversal_into_sibling_directory_is_served :
  requestPath siteServer (Some "/../app-secret/key.txt") = "/srv/app-secret/key.txt"
  /\ insideRoot (rootPath siteServer) "/srv/app-secret/key.txt" = false
  /\ handleRequest Mime.standardTypes siteDisk siteServer (Some "/../app-secret/key.txt")
     = {| status := 200; contentType := "text/plain"; body := "secret" |}.
Proof. repeat split; vm_compute; reflexivity. Qed.

(** C2 as stated fails: with entry file [main.html] present under the root
    and no [index.html], a request for a missing path is answered 404, not
    with the entry file. *)
Lemma fallback_ignores_entry_file :
  existsSync mainOnlyDisk (Path.join (rootPath mainServer) (entryFile mainServer)) = true
  /\ Text.startsWith (requestPath mainServer (Some "/about")) (rootPath mainServer) = true
  /\ existsSync mainOnlyDisk (requestPath mainServer (Some "/about")) = false
  /\ handleRequest Mime.standardTypes mainOnlyDisk mainServer (Some "/about")
     = {| status := 404; contentType := "text/plain"; body := "File not found" |}.
Proof. repeat split; vm_compute; reflexivity. Qed.

Lemma missing_file_falls_back_to_index_html_witness :
  handleRequest Mime.standardTypes siteDisk siteServer (Some "/about")
  = {| status := 200; contentType := "text/html";
       body := withScript (getWebSocketClientScript siteServer)
                 "<html><body>Hi</body></html>" |}.
Proof.
  rewrite (missing_file_falls_back_to_index_html Mime.standardTypes siteDisk siteServer
             (Some "/about")).
  - vm_compute. reflexivity.
  - vm_compute. reflexivity.
  - vm_compute. reflexivity.
Defined.

(** C4 fails on the code: the script is put in only for the extension
    [.html].  A session started on the entry file [page.htm] answers [/]
    with that file, Content-Type [text/html], and without the script; so
    does any session of that root for [/page.htm].  The same content
    under the name [index.html] is answered with the script. *)
Theorem htm_page_is_served_without_script :
  servedPath siteDisk htmServer (Some "/") = Some "/srv/app/page.htm"
  /\ handleRequest Mime.standardTypes siteDisk htmServer (Some "/")
     = {| status := 200; contentType := "text/html";
          body := "<html><body>Old</body></html>" |}
  /\ handleRequest Mime.standardTypes siteDisk siteServer (Some "/page.htm")
     = {| status := 200; contentType := "text/html";
          body := "<html><body>Old</body></html>" |}
  /\ handleRequest Mime.standardTypes siteDisk siteServer (Some "/")
     = {| status := 200; contentType := "text/html";
          body := "<html><body>Hi" ++ getWebSocketClientScript siteServer
                  ++ "</body></html>" |}.
Proof. repeat split; vm_compute; reflexivity. Qed.

Lemma served_file_response_witness :
  handleRequest Mime.standardTypes siteDisk siteServer (Some "/")
  = {| status := 200; contentType := "text/html";
       body := withScript (getWebSocketClientScript siteServer)
                 "<html><body>Hi</body></html>" |}.
Proof.
  rewrite (served_file_response Mime.standardTypes siteDisk siteServer
             (Some "/") "/srv/app/index.html" "<html><body>Hi</body></html>").
  - vm_compute. reflexivity.
  - vm_compute. reflexivity.
  - vm_compute. reflexivity.
Defined.

(** C10 as stated fails: [raw.html] holds no [</body>] and a byte that is
    not UTF-8; it is answered 200 with the replacement character in the
    place of that byte, not with its content. *)
Lemma ill_formed_html_file_is_not_returned_unchanged :
  readFile rawDisk "/srv/app/raw.html" = Some ("<p>" ++ String (ascii_of_nat 255) "")
  /\ ~ Text.Substring "</body>" ("<p>" ++ String (ascii_of_nat 255) "")
  /\ handleRequest Mime.standardTypes rawDisk siteServer (Some "/raw.html")
     = {| status := 200; contentType := "text/html";
          body := "<p>" ++ Buffer.replacementCharacter |}
  /\ "<p>" ++ Buffer.replacementCharacter <> "<p>" ++ String (ascii_of_nat 255) "".
Proof.
  split; [vm_compute; reflexivity |].
  split; [apply findFirst_None; vm_compute; reflexivity |].
  split; [vm_compute; reflexivity |].
  vm_compute. discriminate.
Qed.

Lemma html_script_before_first_body_tag_only_witness :
  body (handleRequest Mime.standardTypes siteDisk siteServer (Some "/twice.html"))
  = "<body>a" ++ getWebSocketClientScript siteServer ++ "</body>" ++ "<body>b</body>".
Proof.
  refine (proj2 (proj2 (proj2 (html_script_before_first_body_tag_only
            Mime.standardTypes siteDisk siteServer (Some "/twice.html")
            "/srv/app/twice.html" "<body>a</body><body>b</body>" _ _ _)))
            "<body>a" "<body>b</body>" _ _).
  - vm_compute. reflexivity.
  - vm_compute. reflexivity.
  - vm_compute. reflexivity.
  - vm_compute. reflexivity.
  - intros i Hi.
    do 7 (destruct i as [|i]; [vm_compute; reflexivity |]).
    simpl in Hi. lia.
Defined.

Example plain_html_unchanged :
  handleRequest Mime.standardTypes siteDisk siteServer (Some "/plain.html")
  = {| status := 200; contentType := "text/html"; body := "<p>no closing tag" |}.
Proof. vm_compute. reflexivity. Qed.

(** ** Broadcast and life cycle *)

Section Lifecycle.

Variable rt : Runtime.

(** One turn of the loop of [broadcastReload]. *)
Lemma forEachClient_cons (s : RealTimeServer) (c : SocketHandle)
    (cs : list SocketHandle) (w : World) :
  forEachClient (c :: cs) (s, w)
  = if isOpen w c then
      if carries w c then
        forEachClient cs (s, withDelivered (delivered w ++ [(c, "reload")]) w)
      else forEachClient cs (s, withWriteErrors (writeErrors w ++ [c]) w)
    else forEachClient cs (s, w).
Proof.
  unfold isOpen, carries, Lib.readyStateOf.
  cbn [forEachClient]. unfold bind, getWorld, Lib.readyStateOf, Lib.send, bind, getWorld.
  cbn [fst snd].
  destruct (sockets w !! c) as [k|] eqn:Ek; cbn; [| reflexivity].
  destruct (readyState k) eqn:Er; cbn; try reflexivity.
  rewrite Ek, Er.
  destruct (transportUp k); reflexivity.
Qed.

(** The loop never throws; it hands one frame to each open client that
    carries it and notes one failed write for each open client that does
    not. *)
Lemma forEachClient_spec (s : RealTimeServer) (cs : list SocketHandle) (w : World) :
  forEachClient cs (s, w)
  = (inr tt,
     (s, {| httpServers := httpServers w; wsServers := wsServers w;
            watchers := watchers w; sockets := sockets w;
            delivered := delivered w ++ reloadsFor (receivers w cs);
            writeErrors := writeErrors w ++ failures w cs |})).
Proof.
  revert w; induction cs as [|c cs IH]; intros w.
  - cbn. rewrite !app_nil_r. now destruct w.
  - rewrite forEachClient_cons. unfold receivers, failures. cbn [List.filter].
    destruct (isOpen w c) eqn:Eo; [destruct (carries w c) eqn:Ec |];
      cbn [andb negb]; rewrite IH; do 3 f_equal;
      unfold receivers, failures, reloadsFor, isOpen, carries, Lib.readyStateOf;
      cbn; rewrite <- ?app_assoc; reflexivity.
Qed.

Lemma stop_not_running (s : RealTimeServer) (w : World) :
  isRunning s = false -> stop rt (s, w) = (inr tt, (s, w)).
Proof. intros H. unfold stop, bind, getThis. cbn [fst snd]. now rewrite H. Qed.

(** What [stop] does to a running server: every handle is closed and
    forgotten, the client set is emptied, the flag is cleared; the sockets
    are touched only by the WebSocket server's own [close()]. *)
Lemma stop_running (s : RealTimeServer) (w : World) :
  isRunning s = true ->
  exists w',
    stop rt (s, w) = (inr tt, (stoppedServer s, w'))
    /\ sockets w' =
         match wss s with
         | Some h =>
             if closeTerminatesClients rt then
               map (fun k => if Nat.eqb (acceptedBy k) h then Lib.terminated k else k)
                   (sockets w)
             else sockets w
         | None => sockets w
         end
    /\ watchers w' = match watcher s with
                     | Some h => <[h := false]> (watchers w)
                     | None => watchers w
                     end
    /\ wsServers w' = match wss s with
                      | Some h => <[h := false]> (wsServers w)
                      | None => wsServers w
                      end
    /\ httpServers w' = match server s with
                        | Some h => <[h := HttpClosed]> (httpServers w)
                        | None => httpServers w
                        end
    /\ delivered w' = delivered w.
Proof.
  intros H. destruct s as [srv ws cl wt root p entry run]. cbn in H. subst run.
  unfold stop, stoppedServer, Lib.closeWebSocketServer.
  destruct wt as [hwt|], ws as [hws|], srv as [hsrv|];
    destruct (closeTerminatesClients rt);
    (eexists; split; [reflexivity | cbn; repeat split; reflexivity]).
Qed.

Lemma startSetup_spec (s : RealTimeServer) (w : World) :
  isRunning s = false ->
  startSetup rt (s, w) =
    let h := length (httpServers w) in
    let s2 := setWss (Some (length (wsServers w))) (setServer (Some h) s) in
    let w2 := withWsServers (wsServers w ++ [true])
                (withHttpServers (httpServers w ++ [HttpCreated]) w) in
    match watchError rt with
    | Some e => (inl e, (s2, w2))
    | None =>
        let s3 := setWatcher (Some (length (watchers w))) s2 in
        let w3 := withWatchers (watchers w ++ [true]) w2 in
        if (65535 <? port s)%N then (inl "ERR_SOCKET_BAD_PORT", (s3, w3))
        else (inr h,
              (s3, withHttpServers
                     (<[h := HttpBinding (port s)]> (httpServers w ++ [HttpCreated])%list)
                     w3))
    end.
Proof.
  intros H. unfold startSetup, bind at 1, getThis at 1. cbn [fst snd]. rewrite H.
  unfold tryCatch, setupFileWatcher, Lib.watch, Lib.listen.
  destruct (watchError rt) as [e|]; [reflexivity |].
  cbn. destruct (65535 <? port s)%N; reflexivity.
Qed.

Lemma start_running (s : RealTimeServer) (w : World) :
  isRunning s = true ->
  start rt (s, w) = (Rejected "Real-time server is already running", (s, w)).
Proof.
  intros H. unfold start, startSetup, bind, getThis. cbn [fst snd]. now rewrite H.
Qed.

Lemma insert_snoc {A} (l : list A) (x y : A) :
  <[length l := x]> (l ++ [y])%list = (l ++ [x])%list.
Proof.
  rewrite insert_app_r_alt by lia. now rewrite Nat.sub_diag.
Qed.

Lemma lookup_snoc {A} (l : list A) (x : A) : (l ++ [x])%list !! length l = Some x.
Proof. now apply list_lookup_middle. Qed.

(** [start] from a session that is not running, step by step. *)
Lemma start_not_running (s : RealTimeServer) (w : World) :
  isRunning s = false ->
  start rt (s, w) =
    let h := length (httpServers w) in
    let s2 := setWss (Some (length (wsServers w))) (setServer (Some h) s) in
    let w2 := withWsServers (wsServers w ++ [true])
                (withHttpServers (httpServers w ++ [HttpCreated]) w) in
    match watchError rt with
    | Some e => (Rejected e, (s2, w2))
    | None =>
        let s3 := setWatcher (Some (length (watchers w))) s2 in
        let w3 := withWatchers (watchers w ++ [true]) w2 in
        if (65535 <? port s)%N then (Rejected "ERR_SOCKET_BAD_PORT", (s3, w3))
        else
          match bindPort rt (port s) with
          | BindOk actualPort =>
              (Resolved actualPort,
               (setIsRunning true s3,
                withHttpServers (httpServers w ++ [HttpListening actualPort]) w3))
          | BindCallbackError e =>
              (Rejected e,
               (s3, withHttpServers (httpServers w ++ [HttpBinding (port s)]) w3))
          | BindErrorEvent e =>
              (Pending,
               (s3, withHttpServers (httpServers w ++ [HttpBinding (port s)]) w3))
          end
    end.
Proof.
  intros H. unfold start. rewrite (startSetup_spec _ _ H). cbv zeta.
  destruct (watchError rt) as [e|]; [reflexivity |].
  destruct (65535 <? port s)%N; [reflexivity |].
  rewrite insert_snoc.
  unfold listenEvent, bind at 1, getWorld at 1. cbn [fst snd].
  cbn [httpServers withHttpServers]. rewrite lookup_snoc.
  destruct (bindPort rt (port s)) as [actualPort|e|e]; [| reflexivity | reflexivity].
  unfold bind at 1, setWorld at 1. cbn [fst snd].
  cbn [withHttpServers httpServers wsServers watchers sockets delivered writeErrors
       withWatchers withWsServers].
  rewrite insert_snoc.
  unfold listenCallback, bind, setThis, getThis, getWorld, Lib.addressPort.
  cbn [fst snd server setIsRunning setWatcher setWss setServer httpServers
       withHttpServers].
  rewrite lookup_snoc. reflexivity.
Qed.

End Lifecycle.

Section LifecycleClaims.

Variable rt : Runtime.

Lemma isOpen_true (w : World) (c : SocketHandle) :
  isOpen w c = true <-> Lib.readyStateOf c w = Some OPEN.
Proof.
  unfold isOpen. destruct (Lib.readyStateOf c w) as [[]|]; split; congruence.
Qed.

(** C6: [broadcastReload] returns without an exception and leaves the
    object and the sockets as they were; a reload frame goes to each client
    of the set that is open, once; a client that is not open is skipped;
    an open client whose write fails is noted and the loop goes on to the
    clients after it. *)
Theorem broadcastReload_reaches_every_open_client (s : RealTimeServer) (w : World) :
  NoDup (clients s) ->
  exists w',
    broadcastReload (s, w) = (inr tt, (s, w'))
    /\ sockets w' = sockets w
    /\ delivered w' = (delivered w ++ reloadsFor (receivers w (clients s)))%list
    /\ writeErrors w' = (writeErrors w ++ failures w (clients s))%list
    /\ NoDup (receivers w (clients s))
    /\ (forall c, c ∈ receivers w (clients s) <->
                  c ∈ clients s /\ Lib.readyStateOf c w = Some OPEN
                  /\ carries w c = true)
    /\ NoDup (failures w (clients s))
    /\ (forall c, c ∈ failures w (clients s) <->
                  c ∈ clients s /\ Lib.readyStateOf c w = Some OPEN
                  /\ carries w c = false).
Proof.
  intros Hnd. eexists. split.
  - unfold broadcastReload, bind, getThis. cbn [fst snd]. apply forEachClient_spec.
  - cbn [sockets delivered writeErrors].
    split; [reflexivity |]. split; [reflexivity |]. split; [reflexivity |].
    assert (Hnd' : List.NoDup (clients s)) by now apply NoDup_ListNoDup.
    split; [| split; [| split]].
    + apply NoDup_ListNoDup. unfold receivers. now apply List.NoDup_filter.
    + intros c. unfold receivers.
      rewrite !list_elem_of_In, filter_In, andb_true_iff, isOpen_true. tauto.
    + apply NoDup_ListNoDup. unfold failures. now apply List.NoDup_filter.
    + intros c. unfold failures.
      rewrite !list_elem_of_In, filter_In, andb_true_iff, negb_true_iff, isOpen_true.
      tauto.
Qed.

(** C5, as the code has it: [stop] on a running session empties the
    client set and clears the running flag, and closes no connection
    itself: the sockets change only through the WebSocket server's own
    [close()], which terminates the sockets that server accepted when the
    library does so and leaves every socket as it was otherwise. *)
Theorem stop_empties_client_set (s : RealTimeServer) (w : World) :
  isRunning s = true ->
  exists s' w',
    stop rt (s, w) = (inr tt, (s', w'))
    /\ clients s' = []
    /\ isRunning s' = false
    /\ sockets w' =
         match wss s with
         | Some h =>
             if closeTerminatesClients rt then
               map (fun k => if Nat.eqb (acceptedBy k) h then Lib.terminated k else k)
                   (sockets w)
             else sockets w
         | None => sockets w
         end.
Proof.
  intros H. destruct (stop_running rt s w H) as (w' & Hstop & Hsock & _).
  exists (stoppedServer s), w'. repeat split; assumption.
Qed.

(** C9: [stop] on a session that is not running returns without an
    exception and changes nothing; from any session, [stop] returns
    without an exception with the running flag cleared, and a second
    [stop] again returns without an exception and changes nothing. *)
Theorem stop_twice_is_quiet (s : RealTimeServer) (w : World) :
  stop rt (setIsRunning false s, w) = (inr tt, (setIsRunning false s, w))
  /\ exists s1 w1,
       stop rt (s, w) = (inr tt, (s1, w1))
       /\ getIsRunning s1 = false
       /\ stop rt (s1, w1) = (inr tt, (s1, w1)).
Proof.
  split; [now apply stop_not_running |].
  destruct (isRunning s) eqn:H.
  - destruct (stop_running rt s w H) as (w' & Hstop & _).
    exists (stoppedServer s), w'.
    split; [exact Hstop |]. split; [reflexivity | now apply stop_not_running].
  - exists s, w.
    split; [now apply stop_not_running |]. split; [exact H | now apply stop_not_running].
Qed.

(** C8, as the code has it: [start] on a session whose running flag is
    set is rejected with the already-running error and changes nothing. *)
Theorem start_while_running_is_rejected (s : RealTimeServer) (w : World) :
  isRunning s = true ->
  start rt (s, w) = (Rejected "Real-time server is already running", (s, w)).
Proof. apply start_running. Qed.

(** C7, as the code has it: a [start] that does not resolve leaves the
    running flag as it was and cleans nothing up.  On a running session
    it is rejected and changes nothing.  On a session that is not running
    the http server and the WebSocket server it created stay held by the
    object and open; when [chokidar.watch] throws, that is the rejection;
    otherwise the watcher it started stays held by the object and keeps
    watching, and a port above 65535 is the rejection.  Everything that
    was in the world before is as it was, and a [stop] that follows
    returns at once and changes nothing. *)
Theorem failed_start_cleans_nothing_up
    (s s' : RealTimeServer) (w w' : World) (outcome : StartOutcome) :
  start rt (s, w) = (outcome, (s', w')) ->
  (forall actualPort, outcome <> Resolved actualPort) ->
  isRunning s' = isRunning s
  /\ clients s' = clients s
  /\ sockets w' = sockets w
  /\ delivered w' = delivered w
  /\ (isRunning s = true ->
      outcome = Rejected "Real-time server is already running" /\ s' = s /\ w' = w)
  /\ (isRunning s = false ->
      server s' = Some (length (httpServers w))
      /\ wss s' = Some (length (wsServers w))
      /\ wsServers w' = (wsServers w ++ [true])%list
      /\ match watchError rt with
         | Some e =>
             outcome = Rejected e
             /\ watcher s' = watcher s
             /\ watchers w' = watchers w
             /\ httpServers w' = (httpServers w ++ [HttpCreated])%list
         | None =>
             watcher s' = Some (length (watchers w))
             /\ watchers w' = (watchers w ++ [true])%list
             /\ if (65535 <? port s)%N then
                  outcome = Rejected "ERR_SOCKET_BAD_PORT"
                  /\ httpServers w' = (httpServers w ++ [HttpCreated])%list
                else httpServers w' = (httpServers w ++ [HttpBinding (port s)])%list
         end
      /\ stop rt (s', w') = (inr tt, (s', w'))).
Proof.
  intros Hstart Hfail.
  destruct (isRunning s) eqn:Hrun.
  - rewrite (start_running rt s w Hrun) in Hstart.
    injection Hstart as <- <- <-.
    split; [exact Hrun |]. split; [reflexivity |]. split; [reflexivity |].
    split; [reflexivity |].
    split; [intros _; repeat split | discriminate].
  - rewrite (start_not_running rt s w Hrun) in Hstart. cbv zeta in Hstart.
    assert (Hquiet : isRunning s' = false -> stop rt (s', w') = (inr tt, (s', w')))
      by apply stop_not_running.
    destruct (watchError rt) as [we|].
    + injection Hstart as <- <- <-.
      split; [exact Hrun |]. split; [reflexivity |]. split; [reflexivity |].
      split; [reflexivity |].
      split; [discriminate | intros _].
      split; [reflexivity |]. split; [reflexivity |]. split; [reflexivity |].
      split; [now repeat split | exact (Hquiet Hrun)].
    + destruct (65535 <? port s)%N.
      * injection Hstart as <- <- <-.
        split; [exact Hrun |]. split; [reflexivity |]. split; [reflexivity |].
        split; [reflexivity |].
        split; [discriminate | intros _].
        split; [reflexivity |]. split; [reflexivity |]. split; [reflexivity |].
        split; [now repeat split | exact (Hquiet Hrun)].
      * destruct (bindPort rt (port s)) as [a|be|be];
          [now destruct (Hfail a); injection Hstart as <- | |];
          injection Hstart as <- <- <-;
          (split; [exact Hrun |]); (split; [reflexivity |]); (split; [reflexivity |]);
          (split; [reflexivity |]);
          (split; [discriminate | intros _]);
          (split; [reflexivity |]); (split; [reflexivity |]); (split; [reflexivity |]);
          (split; [now repeat split | exact (Hquiet Hrun)]).
Qed.

(** A resolved [start] yields the port the listener is bound to, and
    leaves the object's [port] field at the preferred port. *)
Lemma start_resolves_with_bound_port
    (s s' : RealTimeServer) (w w' : World) (actualPort : N) :
  start rt (s, w) = (Resolved actualPort, (s', w')) ->
  isRunning s' = true
  /\ port s' = port s
  /\ exists h, server s' = Some h /\ Lib.addressPort h w' = Some actualPort.
Proof.
  intros Hstart. destruct (isRunning s) eqn:Hrun.
  - rewrite (start_running rt s w Hrun) in Hstart. discriminate.
  - rewrite (start_not_running rt s w Hrun) in Hstart. cbv zeta in Hstart.
    destruct (watchError rt); [discriminate |].
    destruct (65535 <? port s)%N; [discriminate |].
    destruct (bindPort rt (port s)) as [a|be|be]; try discriminate.
    injection Hstart as -> <- <-. cbn. repeat split.
    eexists. split; [reflexivity |].
    unfold Lib.addressPort. cbn. now rewrite lookup_snoc.
Qed.

End LifecycleClaims.

(** ** The life cycle on concrete sessions *)

Lemma substring_found (sub s : string) :
  Text.findFirst sub s <> None -> Text.Substring sub s.
Proof.
  destruct (Text.findFirst sub s) as [[before after]|] eqn:F; [| congruence].
  intros _. destruct (findFirst_Some _ _ _ _ F) as [-> _]. now exists before, after.
Qed.

(** C3 fails on the code: the script is built from the [port] field, which
    keeps the preferred port.  A session started with port 0 resolves with
    the bound port 49152, and the page it serves for [/] opens
    [ws://localhost:0]. *)
Theorem script_port_is_preferred_port_not_bound_port :
  exists s1 w1,
    start nodeRuntime (anyPortServer, emptyWorld) = (Resolved 49152, (s1, w1))
    /\ Lib.addressPort 0 w1 = Some 49152%N
    /\ getPort s1 = 0%N
    /\ body (handleRequest Mime.standardTypes siteDisk s1 (Some "/"))
       = "<html><body>Hi" ++ getWebSocketClientScript anyPortServer ++ "</body></html>"
    /\ Text.Substring "new WebSocket('ws://localhost:0')"
         (body (handleRequest Mime.standardTypes siteDisk s1 (Some "/")))
    /\ ~ Text.Substring "49152"
           (body (handleRequest Mime.standardTypes siteDisk s1 (Some "/"))).
Proof.
  eexists. eexists. split; [vm_compute; reflexivity |].
  split; [vm_compute; reflexivity |].
  split; [vm_compute; reflexivity |].
  split; [vm_compute; reflexivity |].
  split.
  - apply substring_found. vm_compute. discriminate.
  - apply findFirst_None. vm_compute. reflexivity.
Qed.

(** C5 as stated fails: after [stop] the client set is empty, and the two
    connections of the session are still open. *)
Lemma stop_leaves_connections_open :
  isRunning (fst twoTabs) = true
  /\ clients (fst twoTabs) = [0; 1]%nat
  /\ exists s' w',
       stop nodeRuntime twoTabs = (inr tt, (s', w'))
       /\ clients s' = []
       /\ Lib.readyStateOf 0 w' = Some OPEN
       /\ Lib.readyStateOf 1 w' = Some OPEN.
Proof.
  split; [vm_compute; reflexivity |]. split; [vm_compute; reflexivity |].
  eexists. eexists. split; [vm_compute; reflexivity |].
  repeat split; vm_compute; reflexivity.
Qed.

Lemma stop_empties_client_set_witness :
  exists s' w',
    stop nodeRuntime (fst twoTabs, snd twoTabs) = (inr tt, (s', w'))
    /\ clients s' = [] /\ isRunning s' = false.
Proof.
  destruct (stop_empties_client_set nodeRuntime (fst twoTabs) (snd twoTabs))
    as (s' & w' & Hstop & Hclients & Hrun & _).
  - vm_compute. reflexivity.
  - exists s', w'. repeat split; assumption.
Defined.

Lemma broadcastReload_reaches_every_open_client_witness :
  exists w',
    broadcastReload (mixedServer, mixedWorld) = (inr tt, (mixedServer, w'))
    /\ delivered w' = [(2%nat, "reload")]
    /\ writeErrors w' = [0%nat].
Proof.
  destruct (broadcastReload_reaches_every_open_client mixedServer mixedWorld)
    as (w' & Hrun & _ & Hdel & Herr & _).
  - apply NoDup_ListNoDup. vm_compute. repeat constructor; simpl; lia.
  - exists w'. repeat split; assumption.
Defined.

(** C7 as stated fails: a start on a port that [listen] refuses is
    rejected with the watcher it started still held and watching, the http
    server and the WebSocket server still open, and [stop] afterwards does
    nothing.  A start that meets a bind error is never settled, and leaves
    the same behind. *)
Lemma failed_start_leaves_watcher_running :
  (exists s' w',
     start nodeRuntime (badPortServer, emptyWorld)
     = (Rejected "ERR_SOCKET_BAD_PORT", (s', w'))
     /\ isRunning s' = false
     /\ watcher s' = Some 0%nat
     /\ watchers w' = [true]
     /\ wsServers w' = [true]
     /\ httpServers w' = [HttpCreated]
     /\ stop nodeRuntime (s', w') = (inr tt, (s', w')))
  /\ (exists s' w',
        start errorEventRuntime (siteServer, emptyWorld) = (Pending, (s', w'))
        /\ isRunning s' = false
        /\ watcher s' = Some 0%nat
        /\ watchers w' = [true]
        /\ wsServers w' = [true]
        /\ httpServers w' = [HttpBinding 5500]
        /\ stop errorEventRuntime (s', w') = (inr tt, (s', w'))).
Proof.
  split.
  - eexists. eexists. split; [vm_compute; reflexivity |].
    repeat split; vm_compute; reflexivity.
  - eexists. eexists. split; [vm_compute; reflexivity |].
    repeat split; vm_compute; reflexivity.
Qed.

Lemma failed_start_cleans_nothing_up_witness :
  isRunning (fst refusedStart) = false
  /\ watcher (fst refusedStart) = Some 0%nat
  /\ watchers (snd refusedStart) = [true]
  /\ wsServers (snd refusedStart) = [true]
  /\ stop nodeRuntime refusedStart = (inr tt, refusedStart).
Proof.
  destruct (failed_start_cleans_nothing_up nodeRuntime
              badPortServer (fst refusedStart) emptyWorld (snd refusedStart)
              (Rejected "ERR_SOCKET_BAD_PORT"))
    as (Hflag & _ & _ & _ & _ & Hfresh).
  - vm_compute. reflexivity.
  - discriminate.
  - destruct (Hfresh eq_refl) as (_ & _ & Hwss & (Hheld & Hwatching & _) & Hstop).
    split; [exact Hflag |]. split; [exact Hheld |]. split; [exact Hwatching |].
    split; [exact Hwss | exact Hstop].
Defined.

(** C8 as stated fails: while a first [start] awaits its bind the running
    flag is still clear, and a second [start] is carried out, not refused:
    it creates a second http server and a second watcher and calls
    [listen] again. *)
Lemma start_while_starting_is_carried_out :
  startSetup nodeRuntime (siteServer, emptyWorld) = (inr 0%nat, startingState)
  /\ httpServers (snd startingState) !! 0%nat = Some (HttpBinding 5500)
  /\ isRunning (fst startingState) = false
  /\ exists s' w',
       startSetup nodeRuntime startingState = (inr 1%nat, (s', w'))
       /\ server s' = Some 1%nat
       /\ watchers w' = [true; true]
       /\ httpServers w' = [HttpBinding 5500; HttpBinding 5500].
Proof.
  split; [vm_compute; reflexivity |]. split; [vm_compute; reflexivity |].
  split; [vm_compute; reflexivity |].
  eexists. eexists. split; [vm_compute; reflexivity |].
  repeat split; vm_compute; reflexivity.
Qed.

Lemma start_while_running_is_rejected_witness :
  start nodeRuntime (fst twoTabs, snd twoTabs)
  = (Rejected "Real-time server is already running", (fst twoTabs, snd twoTabs)).
Proof.
  apply (start_while_running_is_rejected nodeRuntime (fst twoTabs) (snd twoTabs)).
  vm_compute. reflexivity.
Defined.

(** ** More on the static responder *)

Section ResponderTable.

Variable types : gmap string string.
Variable fs : FileSystem.
Variable s : RealTimeServer.

Ltac table_case :=
  repeat match goal with |- _ /\ _ => split end;
  try (split; intros;
       repeat match goal with
              | H : _ /\ _ |- _ => destruct H
              | H : exists _, _ |- _ => destruct H
              | H : Some _ = Some _ |- _ => injection H as <-
              end;
       try congruence; try discriminate; eauto 6; fail);
  auto 6.

(** The responder's decision table: every request is answered 200, 403,
    404 or 500; 403 exactly when the resolved path does not start with the
    root, 404 exactly when it does and neither the file nor [index.html]
    under the root exists, 500 exactly when the file to serve exists and
    cannot be read, 200 exactly when it is read; every answer other than
    200 is [text/plain] with its fixed text. *)
Theorem handleRequest_status_table (url : option string) :
  (status (handleRequest types fs s url) = 403
   <-> Text.startsWith (requestPath s url) (rootPath s) = false)
  /\ (status (handleRequest types fs s url) = 404
      <-> Text.startsWith (requestPath s url) (rootPath s) = true
          /\ existsSync fs (requestPath s url) = false
          /\ existsSync fs (Path.join (rootPath s) "index.html") = false)
  /\ (status (handleRequest types fs s url) = 500
      <-> exists p, servedPath fs s url = Some p /\ readFile fs p = None)
  /\ (status (handleRequest types fs s url) = 200
      <-> exists p data, servedPath fs s url = Some p /\ readFile fs p = Some data)
  /\ (status (handleRequest types fs s url) = 200
      \/ handleRequest types fs s url
         = {| status := 403; contentType := "text/plain"; body := "Forbidden" |}
      \/ handleRequest types fs s url
         = {| status := 404; contentType := "text/plain"; body := "File not found" |}
      \/ handleRequest types fs s url
         = {| status := 500; contentType := "text/plain";
              body := "Internal server error" |}).
Proof.
  assert (Hsend : forall p,
            (exists data, readFile fs p = Some data
                          /\ status (sendFile types s p (readFile fs p)) = 200)
            \/ (readFile fs p = None
                /\ sendFile types s p (readFile fs p)
                   = {| status := 500; contentType := "text/plain";
                        body := "Internal server error" |})).
  { intros p. unfold sendFile. destruct (readFile fs p) as [data|].
    - left. exists data. split; [reflexivity |].
      now destruct (String.eqb (Text.toLowerCase (Path.extname p)) ".html").
    - now right. }
  unfold handleRequest, servedPath.
  destruct (Text.startsWith (requestPath s url) (rootPath s)) eqn:Hin; cbn [negb].
  2:{ cbn [status]. table_case. }
  destruct (existsSync fs (requestPath s url)) eqn:Hex; cbn [negb].
  - destruct (Hsend (requestPath s url)) as [(data & Hr & Hst) | (Hr & Hresp)].
    + rewrite Hst. table_case.
    + rewrite Hresp. cbn [status]. table_case.
  - destruct (existsSync fs (Path.join (rootPath s) "index.html")) eqn:Hfb.
    + destruct (Hsend (Path.join (rootPath s) "index.html"))
        as [(data & Hr & Hst) | (Hr & Hresp)].
      * rewrite Hst. table_case.
      * rewrite Hresp. cbn [status]. table_case.
    + cbn [status]. table_case.
Qed.

End ResponderTable.

(** ** Resolution of request paths under a normalized root *)

Section Resolution.

Lemma prefix_append_l (a r x : string) :
  String.prefix a r = true -> String.prefix a (r ++ x) = true.
Proof.
  intros H. destruct (prefix_inv _ _ H) as [rest ->].
  rewrite append_assoc. apply prefix_append.
Qed.

Lemma ordinarySegment_inv (seg : string) :
  ordinarySegment seg = true ->
  String.eqb seg "" = false /\ String.eqb seg "." = false
  /\ String.eqb seg ".." = false /\ Text.hasChar "/" seg = false.
Proof.
  unfold ordinarySegment. rewrite !andb_true_iff, !negb_true_iff. tauto.
Qed.

Lemma hasChar_cons (c d : ascii) (x : string) :
  Text.hasChar c (String d x) = Ascii.eqb c d || Text.hasChar c x.
Proof. reflexivity. Qed.

Lemma segmentsFrom_cons (current : list ascii) (c : ascii) (x : string) :
  Path.segmentsFrom current (String c x)
  = if Ascii.eqb c "/"
    then string_of_list_ascii (rev current) :: Path.segmentsFrom [] x
    else Path.segmentsFrom (c :: current) x.
Proof. reflexivity. Qed.

Lemma segmentsFrom_plain (current : list ascii) (x : string) :
  Text.hasChar "/" x = false ->
  Path.segmentsFrom current x
  = [string_of_list_ascii (rev current ++ list_ascii_of_string x)].
Proof.
  revert current; induction x as [|c x IH]; intros current H.
  - cbn [Path.segmentsFrom list_ascii_of_string]. now rewrite app_nil_r.
  - rewrite hasChar_cons in H. apply orb_false_iff in H as [Hc Hx].
    rewrite segmentsFrom_cons, Ascii.eqb_sym, Hc, (IH _ Hx).
    cbn [rev list_ascii_of_string]. now rewrite <- app_assoc.
Qed.

Lemma segments_joinSegments (segs : list string) :
  segs <> [] -> forallb ordinarySegment segs = true ->
  Path.segmentsFrom [] (Path.joinSegments segs) = segs.
Proof.
  induction segs as [|x segs IH]; intros Hne Hall; [congruence |].
  simpl in Hall. apply andb_true_iff in Hall as [Hx Hall].
  destruct (ordinarySegment_inv _ Hx) as (_ & _ & _ & Hslash).
  destruct segs as [|y segs].
  - simpl. rewrite (segmentsFrom_plain [] x Hslash). simpl.
    now rewrite string_of_list_ascii_of_string.
  - change (Path.joinSegments (x :: y :: segs))
      with (x ++ String "/" (Path.joinSegments (y :: segs))).
    rewrite segmentsFrom_slash, (segmentsFrom_plain [] x Hslash). simpl rev. simpl app at 2.
    rewrite string_of_list_ascii_of_string, IH by (congruence || assumption).
    reflexivity.
Qed.

Lemma normalizeSegments_ordinary (allow : bool) (res segs : list string) :
  forallb ordinarySegment segs = true ->
  Path.normalizeSegments allow res segs = (rev res ++ segs)%list.
Proof.
  revert res; induction segs as [|x segs IH]; intros res Hall.
  - simpl. now rewrite app_nil_r.
  - simpl in Hall. apply andb_true_iff in Hall as [Hx Hall].
    destruct (ordinarySegment_inv _ Hx) as (H1 & H2 & H3 & _).
    simpl. rewrite H1, H2, H3. simpl. rewrite (IH _ Hall). simpl.
    now rewrite <- app_assoc.
Qed.

Lemma joinSegments_nonempty (segs : list string) :
  segs <> [] -> forallb ordinarySegment segs = true ->
  exists c rest, Path.joinSegments segs = String c rest.
Proof.
  destruct segs as [|x segs]; intros Hne Hall; [congruence |].
  simpl in Hall. apply andb_true_iff in Hall as [Hx _].
  destruct (ordinarySegment_inv _ Hx) as (H1 & _).
  destruct x as [|c x]; [discriminate |].
  destruct segs; [now exists c, x |].
  exists c, (x ++ "/" ++ Path.joinSegments (s :: segs)). reflexivity.
Qed.

Lemma endsWithSlash_plain (x : string) :
  Text.hasChar "/" x = false -> Text.endsWithSlash x = false.
Proof.
  induction x as [|c x IH]; intros H; [reflexivity |].
  rewrite hasChar_cons in H. apply orb_false_iff in H as [Hc Hx].
  destruct x as [|d x]; [| exact (IH Hx)].
  change (Text.endsWithSlash (String c "")) with (Ascii.eqb c "/").
  now rewrite Ascii.eqb_sym.
Qed.

Lemma endsWithSlash_joinSegments (segs : list string) :
  segs <> [] -> forallb ordinarySegment segs = true ->
  Text.endsWithSlash (Path.joinSegments segs) = false.
Proof.
  induction segs as [|x segs IH]; intros Hne Hall; [congruence |].
  simpl in Hall. apply andb_true_iff in Hall as [Hx Hall].
  destruct (ordinarySegment_inv _ Hx) as (_ & _ & _ & Hslash).
  destruct segs as [|y segs]; [now apply endsWithSlash_plain |].
  change (Path.joinSegments (x :: y :: segs))
    with (x ++ String "/" (Path.joinSegments (y :: segs))).
  rewrite endsWithSlash_append.
  destruct (joinSegments_nonempty (y :: segs)) as (c & rest & Hj);
    [congruence | assumption |].
  change (Text.endsWithSlash (String "/" (Path.joinSegments (y :: segs))))
    with (match Path.joinSegments (y :: segs) with
          | EmptyString => Ascii.eqb "/" "/"
          | _ => Text.endsWithSlash (Path.joinSegments (y :: segs))
          end).
  rewrite Hj, <- Hj. apply IH; [congruence | assumption].
Qed.

Lemma joinSegments_app (l1 l2 : list string) :
  l1 <> [] -> l2 <> [] ->
  Path.joinSegments (l1 ++ l2) = Path.joinSegments l1 ++ "/" ++ Path.joinSegments l2.
Proof.
  induction l1 as [|x l1 IH]; intros H1 H2; [congruence |].
  destruct l1 as [|y l1].
  - destruct l2; [congruence | reflexivity].
  - change (Path.joinSegments ((x :: y :: l1) ++ l2))
      with (x ++ "/" ++ Path.joinSegments ((y :: l1) ++ l2)).
    rewrite IH by congruence.
    change (Path.joinSegments (x :: y :: l1))
      with (x ++ "/" ++ Path.joinSegments (y :: l1)).
    now rewrite !append_assoc.
Qed.

(** A normalized absolute path is a slash, or a slash followed by its
    kept segments and its trailing slash if it has one. *)
Lemma normalize_fixed_absolute (root : string) :
  String.prefix "/" root = true -> Path.normalize root = root ->
  root = (if String.eqb (Path.joinSegments
                           (Path.normalizeSegments false [] (Path.segments root))) ""
          then "/"
          else "/" ++ Path.joinSegments
                        (Path.normalizeSegments false [] (Path.segments root))
                   ++ (if Text.endsWithSlash root then "/" else "")).
Proof.
  intros Habs Hnorm. unfold Path.normalize in Hnorm.
  destruct root as [|c root]; [discriminate |].
  change (String.eqb (String c root) "") with false in Hnorm. cbv iota in Hnorm.
  rewrite Habs in Hnorm. cbn [negb] in Hnorm. now symmetry.
Qed.

(** The normal form of an absolute root followed by a slash and a rest
    whose segments are ordinary ones after dropped ones. *)
Lemma normalize_under_root (root rest : string) (segs : list string) (c : ascii) (tl : string) :
  String.prefix "/" root = true ->
  rest = String c tl ->
  Text.endsWithSlash rest = false ->
  Path.normalizeSegments false
    (rev (Path.normalizeSegments false [] (Path.segments root)))
    (Path.segmentsFrom [] rest)
  = (Path.normalizeSegments false [] (Path.segments root) ++ segs)%list ->
  segs <> [] ->
  (exists d more, Path.joinSegments segs = String d more) ->
  Path.normalize (root ++ String "/" rest)
  = "/" ++ Path.joinSegments
             (Path.normalizeSegments false [] (Path.segments root) ++ segs).
Proof.
  intros Habs Hrest Htrail Hsegs Hne (d & more & Hj).
  unfold Path.normalize.
  rewrite append_eqb_nil, endsWithSlash_append.
  rewrite (prefix_append_l _ _ _ Habs). cbn [negb].
  assert (Ht : Text.endsWithSlash (String "/" rest) = false).
  { rewrite Hrest in *. exact Htrail. }
  rewrite Ht.
  unfold Path.segments at 1 2. rewrite segmentsFrom_slash, normalizeSegments_app.
  fold (Path.segments root). rewrite Hsegs.
  set (kept := Path.normalizeSegments false [] (Path.segments root)).
  assert (Hbody : exists e body', Path.joinSegments (kept ++ segs) = String e body').
  { destruct kept as [|k kept'].
    - exists d, more. exact Hj.
    - rewrite joinSegments_app by congruence. rewrite Hj.
      destruct (Path.joinSegments (k :: kept')) as [|e j'].
      + now exists "/"%char, (String d more).
      + rewrite append_cons. now eexists _, _. }
  destruct Hbody as (e & body' & Hb). rewrite Hb.
  change (String.eqb (String e body') "") with false. cbv iota.
  now rewrite append_nil_r.
Qed.

(** The fallback path lies under a normalized absolute root. *)
Lemma fallback_starts_with_root (root : string) :
  String.prefix "/" root = true -> Path.normalize root = root ->
  Text.startsWith (Path.join root "index.html") root = true.
Proof.
  intros Habs Hnorm. unfold Text.startsWith, Path.join.
  destruct root as [|c0 root0] eqn:Eroot; [discriminate |]. rewrite <- Eroot in *.
  assert (Hne : String.eqb root "" = false) by now rewrite Eroot.
  rewrite Hne. change (String.eqb "index.html" "") with false. cbv iota.
  change (root ++ "/" ++ "index.html") with (root ++ String "/" "index.html").
  rewrite (normalize_under_root root "index.html" ["index.html"] "i" "ndex.html"
             Habs eq_refl eq_refl).
  - pose proof (normalize_fixed_absolute root Habs Hnorm) as Hform.
    set (kept := Path.normalizeSegments false [] (Path.segments root)) in *.
    destruct kept as [|k kept'].
    + cbn in Hform. rewrite Hform at 1. apply prefix_append.
    + rewrite joinSegments_app by congruence.
      set (j := Path.joinSegments (k :: kept')) in *.
      destruct (String.eqb j "") eqn:Ej.
      * rewrite Hform at 1. apply prefix_append.
      * set (x := Path.joinSegments ["index.html"]).
        destruct (Text.endsWithSlash root).
        -- assert (Heq : "/" ++ j ++ "/" ++ x = root ++ x)
             by (rewrite Hform; now rewrite !append_assoc).
           rewrite Heq. apply prefix_append.
        -- rewrite append_nil_r in Hform.
           assert (Heq : "/" ++ j ++ "/" ++ x = root ++ "/" ++ x)
             by (rewrite Hform; now rewrite !append_assoc).
           rewrite Heq. apply prefix_append.
  - change (Path.segmentsFrom [] "index.html") with ["index.html"].
    set (kept := Path.normalizeSegments false [] (Path.segments root)).
    change (Path.normalizeSegments false (rev kept) ["index.html"])
      with (rev ("index.html" :: rev kept)).
    change (rev ("index.html" :: rev kept)) with (rev (rev kept) ++ ["index.html"])%list.
    now rewrite rev_involutive.
  - congruence.
  - now exists "i"%char, "ndex.html".
Qed.

End Resolution.

Section ResolutionTheorems.

Variable fs : FileSystem.
Variable s : RealTimeServer.

(** With an absolute, normalized root, every file the responder reads has
    the root as a prefix of its path: the requested file by the check, the
    [index.html] fallback by construction. *)
Theorem served_path_starts_with_root (url : option string) (p : string) :
  String.prefix "/" (rootPath s) = true ->
  Path.normalize (rootPath s) = rootPath s ->
  servedPath fs s url = Some p ->
  Text.startsWith p (rootPath s) = true.
Proof.
  intros Habs Hnorm. unfold servedPath.
  destruct (Text.startsWith (requestPath s url) (rootPath s)) eqn:Hin; [| discriminate].
  cbn [negb].
  destruct (existsSync fs (requestPath s url)); [now intros [= <-] |].
  destruct (existsSync fs (Path.join (rootPath s) "index.html")); [| discriminate].
  intros [= <-]. now apply fallback_starts_with_root.
Qed.

(** With an absolute, normalized root that does not end in a slash, a url
    made of ordinary segments resolves to the root followed by the url,
    and is never refused. *)
Theorem ordinary_url_resolves_under_root (segs : list string) :
  String.prefix "/" (rootPath s) = true ->
  Path.normalize (rootPath s) = rootPath s ->
  Text.endsWithSlash (rootPath s) = false ->
  segs <> [] ->
  forallb ordinarySegment segs = true ->
  requestPath s (Some ("/" ++ Path.joinSegments segs))
  = rootPath s ++ "/" ++ Path.joinSegments segs
  /\ forall types,
       status (handleRequest types fs s (Some ("/" ++ Path.joinSegments segs))) <> 403.
Proof.
  intros Habs Hnorm Htrail Hne Hall.
  destruct (joinSegments_nonempty segs Hne Hall) as (d & more & Hj).
  assert (Hpath : requestPath s (Some ("/" ++ Path.joinSegments segs))
                  = rootPath s ++ "/" ++ Path.joinSegments segs).
  { unfold requestPath, Path.join.
    change ("/" ++ Path.joinSegments segs) with (String "/" (Path.joinSegments segs)).
    assert (Hu1 : String.eqb (String "/" (Path.joinSegments segs)) "/" = false)
      by now rewrite Hj.
    assert (Hu2 : String.eqb (String "/" (Path.joinSegments segs)) "" = false)
      by reflexivity.
    rewrite Hu1, Hu2.
    destruct (rootPath s) as [|c0 root0] eqn:Eroot; [discriminate |].
    rewrite <- Eroot in *.
    assert (Hroot : String.eqb (rootPath s) "" = false) by now rewrite Eroot.
    rewrite Hroot.
    change (rootPath s ++ "/" ++ String "/" (Path.joinSegments segs))
      with (rootPath s ++ String "/" (String "/" (Path.joinSegments segs))).
    rewrite (normalize_under_root (rootPath s) (String "/" (Path.joinSegments segs))
               segs "/" (Path.joinSegments segs) Habs eq_refl).
    - pose proof (normalize_fixed_absolute (rootPath s) Habs Hnorm) as Hform.
      rewrite Htrail, append_nil_r in Hform.
      set (kept := Path.normalizeSegments false [] (Path.segments (rootPath s))) in *.
      destruct kept as [|k kept'].
      + cbn in Hform. rewrite Hform in Htrail. discriminate.
      + rewrite joinSegments_app by congruence.
        set (j := Path.joinSegments (k :: kept')) in *.
        destruct (String.eqb j "").
        * rewrite Hform in Htrail. discriminate.
        * change (rootPath s ++ String "/" (Path.joinSegments segs))
            with (rootPath s ++ "/" ++ Path.joinSegments segs).
          rewrite Hform. now rewrite !append_assoc.
    - change (Text.endsWithSlash (String "/" (Path.joinSegments segs)))
        with (match Path.joinSegments segs with
              | EmptyString => Ascii.eqb "/" "/"
              | _ => Text.endsWithSlash (Path.joinSegments segs)
              end).
      rewrite Hj, <- Hj. now apply endsWithSlash_joinSegments.
    - rewrite segmentsFrom_cons. change (Ascii.eqb "/" "/") with true. cbv iota.
      rewrite (segments_joinSegments segs Hne Hall).
      change (string_of_list_ascii (rev [])) with "".
      change (Path.normalizeSegments false ?r ("" :: segs))
        with (Path.normalizeSegments false r segs).
      rewrite (normalizeSegments_ordinary _ _ _ Hall). now rewrite rev_involutive.
    - exact Hne.
    - now exists d, more. }
  split; [exact Hpath |].
  intros types. unfold handleRequest. rewrite Hpath.
  unfold Text.startsWith. rewrite prefix_append. cbn [negb].
  destruct (existsSync fs _); cbn [negb].
  - unfold sendFile. destruct (readFile fs _); [| discriminate].
    destruct (String.eqb _ ".html"); discriminate.
  - destruct (existsSync fs _); [| discriminate].
    unfold sendFile. destruct (readFile fs _); [| discriminate].
    destruct (String.eqb _ ".html"); discriminate.
Qed.

End ResolutionTheorems.

Lemma served_path_starts_with_root_witness :
  Text.startsWith "/srv/app/index.html" (rootPath siteServer) = true.
Proof.
  apply (served_path_starts_with_root siteDisk siteServer (Some "/about")).
  - vm_compute. reflexivity.
  - vm_compute. reflexivity.
  - vm_compute. reflexivity.
Defined.

Lemma ordinary_url_resolves_under_root_witness :
  requestPath siteServer (Some ("/" ++ Path.joinSegments ["assets"; "site.css"]))
  = rootPath siteServer ++ "/" ++ Path.joinSegments ["assets"; "site.css"].
Proof.
  refine (proj1 (ordinary_url_resolves_under_root siteDisk siteServer
                   ["assets"; "site.css"] _ _ _ _ _)).
  - vm_compute. reflexivity.
  - vm_compute. reflexivity.
  - vm_compute. reflexivity.
  - discriminate.
  - vm_compute. reflexivity.
Defined.

(** ** The client set *)

Section ClientSet.

Lemma setAdd_NoDup (c : SocketHandle) (l : list SocketHandle) :
  NoDup l -> NoDup (setAdd c l).
Proof.
  intros H. unfold setAdd. case_bool_decide; [exact H |].
  apply NoDup_app. repeat split; [exact H | | apply NoDup_singleton].
  intros x Hx Hc. apply list_elem_of_singleton in Hc. congruence.
Qed.

Lemma setDelete_NoDup (c : SocketHandle) (l : list SocketHandle) :
  NoDup l -> NoDup (setDelete c l).
Proof. intros H. unfold setDelete. now apply NoDup_filter. Qed.

Lemma elem_of_setDelete (c d : SocketHandle) (l : list SocketHandle) :
  d ∈ setDelete c l <-> d <> c /\ d ∈ l.
Proof. unfold setDelete. rewrite list_elem_of_filter. tauto. Qed.

Lemma setDelete_absent (c : SocketHandle) (l : list SocketHandle) :
  c ∉ l -> setDelete c l = l.
Proof.
  intros H. unfold setDelete. induction l as [|x l IH]; [reflexivity |].
  apply not_elem_of_cons in H as [Hx Hl].
  rewrite filter_cons_True by congruence. now rewrite IH.
Qed.

Lemma receivers_setDelete (w : World) (c : SocketHandle) (l : list SocketHandle) :
  receivers w (setDelete c l) = setDelete c (receivers w l).
Proof.
  unfold receivers, setDelete. induction l as [|x l IH]; [reflexivity |].
  destruct (decide (x = c)) as [->|Hne].
  - rewrite filter_cons_False by congruence. cbn [List.filter].
    destruct (isOpen w c && carries w c); [| exact IH].
    now rewrite filter_cons_False by congruence.
  - rewrite filter_cons_True by congruence. cbn [List.filter].
    destruct (isOpen w x && carries w x); [| exact IH].
    rewrite filter_cons_True by congruence. now rewrite IH.
Qed.

(** The [close]/[error] handler of a socket takes the socket out of the
    client set and keeps the others in their order; running it again
    changes nothing; a broadcast after it sends the socket nothing and the
    other clients what they would have got. *)
Theorem onSocketClose_unregisters (s : RealTimeServer) (w : World) (c : SocketHandle) :
  exists s',
    onSocketClose c (s, w) = (inr tt, (s', w))
    /\ clients s' = setDelete c (clients s)
    /\ (c ∉ clients s')
    /\ (forall d, d <> c -> (d ∈ clients s' <-> d ∈ clients s))
    /\ onSocketClose c (s', w) = (inr tt, (s', w))
    /\ exists w',
         broadcastReload (s', w) = (inr tt, (s', w'))
         /\ delivered w'
            = (delivered w ++ reloadsFor (setDelete c (receivers w (clients s))))%list.
Proof.
  exists (setClients (setDelete c (clients s)) s).
  split; [reflexivity |]. split; [reflexivity |].
  assert (Hout : c ∉ setDelete c (clients s)).
  { rewrite elem_of_setDelete. tauto. }
  split; [exact Hout |]. split.
  { intros d Hd. cbn [clients setClients]. rewrite elem_of_setDelete. tauto. }
  split.
  { unfold onSocketClose, bind, getThis, setThis. cbn [fst snd clients setClients].
    rewrite (setDelete_absent _ _ Hout). reflexivity. }
  eexists. split.
  - unfold broadcastReload, bind, getThis. cbn [fst snd]. apply forEachClient_spec.
  - cbn [delivered clients setClients]. now rewrite receivers_setDelete.
Qed.

(** The [connection] handler creates the socket open and adds it to the
    client set, which stays free of duplicates and keeps its earlier
    members; the next broadcast reaches the new socket. *)
Theorem onConnection_registers (s : RealTimeServer) (w : World) (h : WssHandle) :
  NoDup (clients s) ->
  exists s' w',
    onConnection h (s, w) = (inr (length (sockets w)), (s', w'))
    /\ clients s' = setAdd (length (sockets w)) (clients s)
    /\ NoDup (clients s')
    /\ (length (sockets w) ∈ clients s')
    /\ (forall d, d ∈ clients s -> d ∈ clients s')
    /\ Lib.readyStateOf (length (sockets w)) w' = Some OPEN
    /\ (forall d, d <> length (sockets w) -> sockets w' !! d = sockets w !! d)
    /\ (length (sockets w) ∈ receivers w' (clients s')).
Proof.
  intros Hnd.
  exists (setClients (setAdd (length (sockets w)) (clients s)) s).
  exists (withSockets (sockets w ++ [{| readyState := OPEN; transportUp := true;
                                        acceptedBy := h |}]) w).
  split; [reflexivity |]. cbn [clients setClients sockets withSockets].
  assert (Hin : length (sockets w) ∈ setAdd (length (sockets w)) (clients s)).
  { unfold setAdd. case_bool_decide; [assumption |].
    apply elem_of_app. right. apply list_elem_of_singleton. reflexivity. }
  assert (Hopen : (sockets w ++ [{| readyState := OPEN; transportUp := true;
                                    acceptedBy := h |}])%list !! length (sockets w)
                  = Some {| readyState := OPEN; transportUp := true; acceptedBy := h |})
    by apply lookup_snoc.
  split; [reflexivity |]. split; [now apply setAdd_NoDup |]. split; [exact Hin |].
  split.
  { intros d Hd. unfold setAdd. case_bool_decide; [assumption |].
    apply elem_of_app. now left. }
  split.
  { unfold Lib.readyStateOf, SocketHandle. cbn [sockets withSockets]. now rewrite Hopen. }
  split.
  { intros d Hd. destruct (decide (d < length (sockets w))) as [Hlt|Hge].
    - now rewrite lookup_app_l.
    - rewrite !lookup_ge_None_2; [reflexivity | lia |].
      rewrite length_app. simpl. lia. }
  unfold receivers. apply list_elem_of_In, filter_In. split.
  - now apply list_elem_of_In.
  - unfold isOpen, carries, Lib.readyStateOf, SocketHandle. cbn [sockets withSockets].
    now rewrite Hopen.
Qed.

End ClientSet.

(** ** Sequences of calls and events *)

Section Runs.

Variable rt : Runtime.

Lemma startSetup_running (s : RealTimeServer) (w : World) :
  isRunning s = true ->
  startSetup rt (s, w) = (inl "Real-time server is already running", (s, w)).
Proof.
  intros H. unfold startSetup, bind, getThis. cbn [fst snd]. now rewrite H.
Qed.

Lemma listenEvent_object (h : HttpHandle) (s : RealTimeServer) (w : World) :
  fst (snd (listenEvent rt h (s, w))) = s
  \/ fst (snd (listenEvent rt h (s, w))) = setIsRunning true s.
Proof.
  unfold listenEvent, bind, getWorld. cbn [fst snd].
  destruct (httpServers w !! h) as [[| requested | bound |]|]; try (now left).
  destruct (bindPort rt requested) as [a|e|e]; try (now left).
  unfold listenCallback, bind, setWorld, setThis, getThis, getWorld. cbn [fst snd].
  destruct (server (setIsRunning true s)) as [h'|]; [| now right].
  destruct (Lib.addressPort h' _); now right.
Qed.

Lemma socketCloses_object (ws : SocketHandle) (s : RealTimeServer) (w : World) :
  fst (snd (socketCloses ws (s, w))) = setClients (setDelete ws (clients s)) s.
Proof. reflexivity. Qed.

(** What one call or event can do to the object's fields: the
    configuration is kept, and the client set stays free of duplicates. *)
Lemma step_object (ev : Event) (st : State) :
  rootPath (fst (step rt ev st)) = rootPath (fst st)
  /\ port (fst (step rt ev st)) = port (fst st)
  /\ entryFile (fst (step rt ev st)) = entryFile (fst st)
  /\ (NoDup (clients (fst st)) -> NoDup (clients (fst (step rt ev st)))).
Proof.
  destruct st as [s w]. destruct ev as [| h | | filePath | h | ws]; cbn [step fst].
  - destruct (isRunning s) eqn:Hrun.
    + rewrite (startSetup_running _ _ Hrun). cbn. auto.
    + rewrite (startSetup_spec rt _ _ Hrun). cbv zeta.
      destruct (watchError rt); [cbn; auto |].
      destruct (65535 <? port s)%N; cbn; auto.
  - destruct (listenEvent_object h s w) as [-> | ->]; cbn; auto.
  - destruct (isRunning s) eqn:Hrun.
    + destruct (stop_running rt s w Hrun) as (w' & -> & _). cbn.
      repeat split; auto. intros _. apply NoDup_nil_2.
    + rewrite (stop_not_running rt _ _ Hrun). cbn. auto.
  - unfold onChange, broadcastReload, bind, getThis. cbn [fst snd].
    rewrite forEachClient_spec. cbn. auto.
  - cbn. repeat split; auto. apply setAdd_NoDup.
  - rewrite socketCloses_object. cbn. repeat split; auto. apply setDelete_NoDup.
Qed.

(** No call and no event assigns [rootPath], [port] or [entryFile]: after
    any sequence of calls and events they are what they were, and so are
    the answers of [getPort] and [getUrl]. *)
Theorem configuration_never_changes (evs : list Event) (st : State) :
  rootPath (fst (run rt evs st)) = rootPath (fst st)
  /\ port (fst (run rt evs st)) = port (fst st)
  /\ entryFile (fst (run rt evs st)) = entryFile (fst st)
  /\ getPort (fst (run rt evs st)) = getPort (fst st)
  /\ getUrl (fst (run rt evs st)) = getUrl (fst st).
Proof.
  revert st; induction evs as [|ev evs IH]; intros st; [cbn; auto |].
  change (run rt (ev :: evs) st) with (run rt evs (step rt ev st)).
  destruct (IH (step rt ev st)) as (H1 & H2 & H3 & _).
  destruct (step_object ev st) as (G1 & G2 & G3 & _).
  unfold getPort, getUrl. rewrite H1, H2, H3, G1, G2, G3. auto.
Qed.

(** From a constructed object, whatever calls and events follow, the
    client set never holds a socket twice, so the broadcast that comes
    next (which returns without an exception and leaves the object as it
    is) delivers at most one reload frame to each socket. *)
Theorem broadcast_never_repeats_a_client
    (root : string) (p : N) (entry : string) (w : World) (evs : list Event) :
  NoDup (clients (fst (run rt evs (newRealTimeServer root p entry, w))))
  /\ exists reached w',
       broadcastReload (run rt evs (newRealTimeServer root p entry, w))
       = (inr tt, (fst (run rt evs (newRealTimeServer root p entry, w)), w'))
       /\ delivered w'
          = (delivered (snd (run rt evs (newRealTimeServer root p entry, w)))
             ++ reloadsFor reached)%list
       /\ NoDup reached.
Proof.
  assert (Hgen : forall st, NoDup (clients (fst st)) ->
                            NoDup (clients (fst (run rt evs st)))).
  { induction evs as [|ev evs' IH]; intros st H; [exact H |].
    change (run rt (ev :: evs') st) with (run rt evs' (step rt ev st)).
    apply IH. now apply step_object. }
  assert (Hnd : NoDup (clients (fst (run rt evs (newRealTimeServer root p entry, w))))).
  { apply Hgen. cbn. apply NoDup_nil_2. }
  split; [exact Hnd |].
  destruct (run rt evs (newRealTimeServer root p entry, w)) as [s1 w1].
  cbn [fst snd] in *.
  exists (receivers w1 (clients s1)). eexists. split.
  - unfold broadcastReload, bind, getThis. cbn [fst snd]. apply forEachClient_spec.
  - cbn [delivered]. split; [reflexivity |].
    apply NoDup_ListNoDup. apply NoDup_ListNoDup in Hnd.
    unfold receivers. now apply List.NoDup_filter.
Qed.

(** [start] on a session that is not running, with a watcher that starts,
    a port in range and a bind that is granted: the promise resolves with
    the bound port, the flag is set, the three handles are held and their
    objects are live, and clients, sockets and earlier objects of the
    world are untouched. *)
Theorem start_brings_session_up (s : RealTimeServer) (w : World) (actualPort : N) :
  isRunning s = false ->
  watchError rt = None ->
  (65535 <? port s)%N = false ->
  bindPort rt (port s) = BindOk actualPort ->
  exists s' w',
    start rt (s, w) = (Resolved actualPort, (s', w'))
    /\ isRunning s' = true
    /\ server s' = Some (length (httpServers w))
    /\ wss s' = Some (length (wsServers w))
    /\ watcher s' = Some (length (watchers w))
    /\ httpServers w' = (httpServers w ++ [HttpListening actualPort])%list
    /\ wsServers w' = (wsServers w ++ [true])%list
    /\ watchers w' = (watchers w ++ [true])%list
    /\ clients s' = clients s
    /\ sockets w' = sockets w
    /\ delivered w' = delivered w.
Proof.
  intros Hrun Hwatch Hport Hbind.
  rewrite (start_not_running rt s w Hrun). cbv zeta.
  rewrite Hwatch, Hport, Hbind.
  eexists. eexists. split; [reflexivity |]. cbn. repeat split; reflexivity.
Qed.

(** [start] then [stop]: the http server, the WebSocket server and the
    watcher that [start] created are all closed, nothing else of the world
    changed in these tables, and the object holds no handle, no client and
    a clear flag (for a constructed object: it is as constructed). *)
Theorem start_then_stop_releases_everything
    (s : RealTimeServer) (w : World) (actualPort : N) :
  isRunning s = false ->
  watchError rt = None ->
  (65535 <? port s)%N = false ->
  bindPort rt (port s) = BindOk actualPort ->
  exists w2,
    stop rt (snd (start rt (s, w))) = (inr tt, (stoppedServer s, w2))
    /\ httpServers w2 = (httpServers w ++ [HttpClosed])%list
    /\ wsServers w2 = (wsServers w ++ [false])%list
    /\ watchers w2 = (watchers w ++ [false])%list
    /\ delivered w2 = delivered w.
Proof.
  intros Hrun Hwatch Hport Hbind.
  rewrite (start_not_running rt s w Hrun). cbv zeta.
  rewrite Hwatch, Hport, Hbind. cbn [snd].
  match goal with |- context [stop rt (?s1, ?w1)] =>
    destruct (stop_running rt s1 w1 eq_refl)
      as (w2 & Hstop & _ & Hwat & Hwss & Hhttp & Hdel)
  end.
  exists w2. split; [exact Hstop |].
  cbn [watcher wss server setIsRunning setWatcher setWss setServer watchers wsServers
       httpServers delivered withHttpServers withWatchers withWsServers]
    in Hwat, Hwss, Hhttp, Hdel.
  unfold HttpHandle, WssHandle, WatcherHandle in Hwat, Hwss, Hhttp.
  rewrite insert_snoc in Hwat. rewrite insert_snoc in Hwss.
  rewrite insert_snoc in Hhttp. auto.
Qed.

(** A running session that is stopped can be started again: [stop]
    then [start] (the watcher starting, the port in range, the bind
    granted) resolves, with an empty client set. *)
Theorem stop_then_start_runs_again (s : RealTimeServer) (w : World) (actualPort : N) :
  isRunning s = true ->
  watchError rt = None ->
  (65535 <? port s)%N = false ->
  bindPort rt (port s) = BindOk actualPort ->
  exists w1 s2 w2,
    stop rt (s, w) = (inr tt, (stoppedServer s, w1))
    /\ start rt (stoppedServer s, w1) = (Resolved actualPort, (s2, w2))
    /\ isRunning s2 = true
    /\ clients s2 = []
    /\ Lib.addressPort (length (httpServers w1)) w2 = Some actualPort.
Proof.
  intros Hrun Hwatch Hport Hbind.
  destruct (stop_running rt s w Hrun) as (w1 & Hstop & _).
  exists w1. rewrite (start_not_running rt (stoppedServer s) w1 eq_refl). cbv zeta.
  cbn [port stoppedServer]. rewrite Hwatch, Hport, Hbind.
  eexists. eexists. split; [exact Hstop |]. split; [reflexivity |].
  cbn. repeat split. unfold Lib.addressPort. cbn. now rewrite lookup_snoc.
Qed.

Lemma start_bind_error (s : RealTimeServer) (w : World) (e : Error) :
  isRunning s = false ->
  watchError rt = None ->
  (65535 <? port s)%N = false ->
  bindPort rt (port s) = BindCallbackError e \/ bindPort rt (port s) = BindErrorEvent e ->
  exists o,
    start rt (s, w)
    = (o,
       (setWatcher (Some (length (watchers w)))
          (setWss (Some (length (wsServers w)))
             (setServer (Some (length (httpServers w))) s)),
        withHttpServers (httpServers w ++ [HttpBinding (port s)])
          (withWatchers (watchers w ++ [true])
             (withWsServers (wsServers w ++ [true])
                (withHttpServers (httpServers w ++ [HttpCreated]) w)))))
    /\ forall p, o <> Resolved p.
Proof.
  intros Hrun Hwatch Hport Hbind.
  rewrite (start_not_running rt s w Hrun). cbv zeta. rewrite Hwatch, Hport.
  destruct Hbind as [-> | ->]; eexists; (split; [reflexivity | discriminate]).
Qed.

(** [stop] does not make up for a failed [start]: when a first [start]
    meets a bind error (its promise is rejected or never settles), a
    second [start] is carried out and resolves, and the [stop] that
    follows closes the second watcher only; the first keeps watching. *)
Theorem watcher_of_failed_start_outlives_stop
    (rt2 : Runtime) (s : RealTimeServer) (w : World) (e : Error) (actualPort : N) :
  isRunning s = false ->
  watchError rt = None ->
  (65535 <? port s)%N = false ->
  bindPort rt (port s) = BindCallbackError e \/ bindPort rt (port s) = BindErrorEvent e ->
  watchError rt2 = None ->
  bindPort rt2 (port s) = BindOk actualPort ->
  exists st2 w3,
    (forall p, fst (start rt (s, w)) <> Resolved p)
    /\ start rt2 (snd (start rt (s, w))) = (Resolved actualPort, st2)
    /\ stop rt2 st2 = (inr tt, (stoppedServer s, w3))
    /\ watchers w3 = (watchers w ++ [true; false])%list.
Proof.
  intros Hrun Hwatch Hport Hbind Hwatch2 Hbind2.
  destruct (start_bind_error s w e Hrun Hwatch Hport Hbind) as (o & Hstart & Ho).
  rewrite Hstart. cbn [fst snd].
  match goal with |- context [start rt2 (?s1, ?w1)] =>
    rewrite (start_not_running rt2 s1 w1 Hrun); cbv zeta;
    change (port s1) with (port s)
  end.
  rewrite Hwatch2, Hport, Hbind2.
  match goal with |- context [(Resolved actualPort, (?s2, ?w2))] =>
    destruct (stop_running rt2 s2 w2 eq_refl) as (w3 & Hstop & _ & Hwat & _)
  end.
  eexists. exists w3. split; [exact Ho |]. split; [reflexivity |].
  split; [exact Hstop |].
  cbn [watcher wss server setIsRunning setWatcher setWss setServer watchers wsServers
       httpServers delivered withHttpServers withWatchers withWsServers] in Hwat.
  unfold WatcherHandle in Hwat. rewrite Hwat.
  replace (S (length (watchers w))) with (length (watchers w ++ [true])%list)
    by (rewrite length_app; simpl; lia).
  rewrite insert_snoc. now rewrite <- app_assoc.
Qed.

(** After [stop] on a running session a file change sends nothing: the
    client set is empty and the broadcast leaves the state as it is. *)
Theorem change_after_stop_sends_nothing
    (s : RealTimeServer) (w : World) (filePath : string) :
  isRunning s = true ->
  exists st1,
    stop rt (s, w) = (inr tt, st1)
    /\ onChange filePath st1 = (inr tt, st1).
Proof.
  intros Hrun. destruct (stop_running rt s w Hrun) as (w1 & Hstop & _).
  exists (stoppedServer s, w1). split; [exact Hstop |].
  unfold onChange, broadcastReload, bind, getThis. cbn [fst snd clients stoppedServer].
  now destruct w1.
Qed.

End Runs.

(** ** Calls and events on concrete sessions *)

Lemma onConnection_registers_witness :
  exists s' w',
    onConnection 0 (fst twoTabs, snd twoTabs) = (inr 2%nat, (s', w'))
    /\ clients s' = [0; 1; 2]%nat.
Proof.
  destruct (onConnection_registers (fst twoTabs) (snd twoTabs) 0%nat)
    as (s' & w' & Hrun & Hclients & _).
  - apply NoDup_ListNoDup. vm_compute. repeat constructor; simpl; lia.
  - exists s', w'. split; [exact Hrun |]. rewrite Hclients. vm_compute. reflexivity.
Defined.

Lemma start_brings_session_up_witness :
  exists s' w',
    start nodeRuntime (anyPortServer, emptyWorld) = (Resolved 49152, (s', w'))
    /\ isRunning s' = true
    /\ httpServers w' = [HttpListening 49152].
Proof.
  destruct (start_brings_session_up nodeRuntime anyPortServer emptyWorld 49152)
    as (s' & w' & Hstart & Hflag & _ & _ & _ & Hhttp & _);
    try (vm_compute; reflexivity).
  exists s', w'. repeat split; assumption.
Defined.

Lemma start_then_stop_releases_everything_witness :
  exists w2,
    stop nodeRuntime (snd (start nodeRuntime (siteServer, emptyWorld)))
    = (inr tt, (stoppedServer siteServer, w2))
    /\ httpServers w2 = [HttpClosed]
    /\ watchers w2 = [false].
Proof.
  destruct (start_then_stop_releases_everything nodeRuntime siteServer emptyWorld 5500)
    as (w2 & Hstop & Hhttp & _ & Hwat & _);
    try (vm_compute; reflexivity).
  exists w2. repeat split; assumption.
Defined.

Lemma stop_then_start_runs_again_witness :
  exists w1 s2 w2,
    stop nodeRuntime (fst twoTabs, snd twoTabs)
    = (inr tt, (stoppedServer (fst twoTabs), w1))
    /\ start nodeRuntime (stoppedServer (fst twoTabs), w1) = (Resolved 5500, (s2, w2))
    /\ isRunning s2 = true.
Proof.
  destruct (stop_then_start_runs_again nodeRuntime (fst twoTabs) (snd twoTabs) 5500)
    as (w1 & s2 & w2 & Hstop & Hstart & Hflag & _);
    try (vm_compute; reflexivity).
  exists w1, s2, w2. repeat split; assumption.
Defined.

Lemma watcher_of_failed_start_outlives_stop_witness :
  exists st2 w3,
    start nodeRuntime (snd (start errorEventRuntime (siteServer, emptyWorld)))
    = (Resolved 5500, st2)
    /\ stop nodeRuntime st2 = (inr tt, (stoppedServer siteServer, w3))
    /\ watchers w3 = [true; false].
Proof.
  destruct (watcher_of_failed_start_outlives_stop errorEventRuntime nodeRuntime
              siteServer emptyWorld "EADDRINUSE" 5500)
    as (st2 & w3 & _ & Hstart & Hstop & Hwat);
    try (vm_compute; reflexivity).
  - right. reflexivity.
  - exists st2, w3. repeat split; assumption.
Defined.

Lemma change_after_stop_sends_nothing_witness :
  exists st1,
    stop nodeRuntime (fst twoTabs, snd twoTabs) = (inr tt, st1)
    /\ onChange "/srv/app/index.html" st1 = (inr tt, st1).
Proof.
  apply (change_after_stop_sends_nothing nodeRuntime (fst twoTabs) (snd twoTabs)).
  vm_compute. reflexivity.
Defined.

(** ** The status bar *)

Section StatusBarFacts.

Import StatusBar.

Lemma updateStatus_state (status : DevServerStatus) (port : option N)
    (projectType : option string) (p : StatusBarProvider) :
  currentStatus (updateStatus status port projectType p) = status
  /\ currentPort (updateStatus status port projectType p)
     = match port with Some n => Some n | None => currentPort p end
  /\ currentProjectType (updateStatus status port projectType p)
     = match projectType with
       | Some t => if String.eqb t "" then currentProjectType p else t
       | None => currentProjectType p
       end
  /\ command (statusBarItem (updateStatus status port projectType p))
     = command (statusBarItem p)
  /\ visible (statusBarItem (updateStatus status port projectType p))
     = visible (statusBarItem p).
Proof. destruct status; repeat split; reflexivity. Qed.

Lemma updates_snoc (calls : list (DevServerStatus * option N * option string))
    (status : DevServerStatus) (port : option N) (projectType : option string)
    (p : StatusBarProvider) :
  updates (calls ++ [(status, port, projectType)]) p
  = updateStatus status port projectType (updates calls p).
Proof. unfold updates. now rewrite fold_left_app. Qed.

Lemma updates_item (calls : list (DevServerStatus * option N * option string))
    (p : StatusBarProvider) :
  command (statusBarItem (updates calls p)) = command (statusBarItem p)
  /\ visible (statusBarItem (updates calls p)) = visible (statusBarItem p).
Proof.
  revert p; induction calls as [|[[status port] projectType] calls IH]; intros p;
    [now split |].
  change (updates ((status, port, projectType) :: calls) p)
    with (updates calls (updateStatus status port projectType p)).
  destruct (IH (updateStatus status port projectType p)) as [-> ->].
  destruct (updateStatus_state status port projectType p) as (_ & _ & _ & -> & ->).
  now split.
Qed.

(** After any sequence of [updateStatus] calls the provider reports the
    status of the last call, [isRunning] answers true exactly for Running,
    the item carries the error background exactly for Error and none
    otherwise, and the item's command and visibility are as before the
    calls. *)
Theorem status_bar_shows_last_update
    (calls : list (DevServerStatus * option N * option string))
    (status : DevServerStatus) (port : option N) (projectType : option string)
    (p : StatusBarProvider) :
  getStatus (updates (calls ++ [(status, port, projectType)]) p) = status
  /\ (isRunning (updates (calls ++ [(status, port, projectType)]) p) = true
      <-> status = Running)
  /\ backgroundColor (statusBarItem (updates (calls ++ [(status, port, projectType)]) p))
     = match status with
       | Error => Some "statusBarItem.errorBackground"
       | _ => None
       end
  /\ command (statusBarItem (updates (calls ++ [(status, port, projectType)]) p))
     = command (statusBarItem p)
  /\ visible (statusBarItem (updates (calls ++ [(status, port, projectType)]) p))
     = visible (statusBarItem p).
Proof.
  destruct (updates_item (calls ++ [(status, port, projectType)]) p) as [Hc Hv].
  rewrite Hc, Hv. rewrite updates_snoc.
  split; [now destruct status |].
  split; [destruct status; cbn; split; congruence |].
  split; [now destruct status | now split].
Qed.

Lemma updates_without_port (statuses : list DevServerStatus) (p : StatusBarProvider) :
  currentPort (updates (map (fun status => (status, None, None)) statuses) p)
  = currentPort p
  /\ currentProjectType (updates (map (fun status => (status, None, None)) statuses) p)
     = currentProjectType p.
Proof.
  revert p; induction statuses as [|status statuses IH]; intros p; [now split |].
  change (updates (map (fun status => (status, None, None)) (status :: statuses)) p)
    with (updates (map (fun status => (status, None, None)) statuses)
            (updateStatus status None None p)).
  destruct (IH (updateStatus status None None p)) as [-> ->].
  destruct (updateStatus_state status None None p) as (_ & -> & -> & _).
  now split.
Qed.

(** The provider never forgets a port or a project type: after a Running
    update with port [n] and type [t], whatever statuses follow without a
    port and a type (Stopped and Error among them), a Running update
    without them shows [t] and [n] again; port 0 is never shown. *)
Theorem status_bar_keeps_port_and_type
    (statuses : list DevServerStatus) (n : N) (t : string) (p : StatusBarProvider) :
  String.eqb t "" = false ->
  text (statusBarItem
          (updateStatus Running None None
             (updates (map (fun status => (status, None, None)) statuses)
                (updateStatus Running (Some n) (Some t) p))))
  = "$(play-circle) " ++ t ++ (if (n =? 0)%N then "" else " @" ++ Text.ofNumber n).
Proof.
  intros Ht.
  destruct (updates_without_port statuses (updateStatus Running (Some n) (Some t) p))
    as [Hport Htype].
  destruct (updateStatus_state Running (Some n) (Some t) p) as (_ & Hp & Hty & _).
  rewrite Hp in Hport. rewrite Hty, Ht in Htype.
  unfold updateStatus at 1, updateStatusBarText.
  cbn [currentStatus currentPort currentProjectType statusBarItem text].
  rewrite Hport, Htype, Ht.
  now rewrite append_assoc.
Qed.

End StatusBarFacts.

Lemma status_bar_keeps_port_and_type_witness :
  StatusBar.text (StatusBar.statusBarItem
     (StatusBar.updateStatus StatusBar.Running None None
        (StatusBar.updates
           (map (fun status => (status, None, None)) [StatusBar.Stopped; StatusBar.Error])
           (StatusBar.updateStatus StatusBar.Running (Some 5500%N) (Some "html")
              StatusBar.newStatusBarProvider))))
  = "$(play-circle) html @5500".
Proof.
  rewrite (status_bar_keeps_port_and_type [StatusBar.Stopped; StatusBar.Error]
             5500 "html" StatusBar.newStatusBarProvider).
  - vm_compute. reflexivity.
  - reflexivity.
Defined.

(** ** The command object: [stop], [dispose], [handleError] *)

Section CommandFacts.

Variable env : Command.Environment.

(** The server's own [stop] never throws. *)
Lemma server_stop_returns (srv : RealTimeServer) (w : World) :
  exists srv' w',
    stop (Command.runtime env) (srv, w) = (inr tt, (srv', w'))
    /\ isRunning srv' = false
    /\ (isRunning srv = false -> srv' = srv /\ w' = w).
Proof.
  destruct (isRunning srv) eqn:Hrun.
  - destruct (stop_running (Command.runtime env) srv w Hrun) as (w' & Hstop & _).
    exists (stoppedServer srv), w'. repeat split; [exact Hstop | discriminate | discriminate].
  - exists srv, w. rewrite (stop_not_running _ _ _ Hrun). auto.
Qed.

Lemma releaseServer_spec (c : Command.StartDevCommand) (w : World)
    (ui : list Command.UiEffect) :
  exists w',
    Command.releaseServer env (c, w, ui)
    = (None,
       ({| Command.statusBarProvider := Command.statusBarProvider c;
           Command.isRunning := Command.isRunning c;
           Command.currentTerminal := Command.currentTerminal c;
           Command.currentPort := Command.currentPort c;
           Command.currentProjectType := Command.currentProjectType c;
           Command.realTimeServer := None |},
        w', ui))
    /\ match Command.realTimeServer c with
       | Some srv => exists srv', stop (Command.runtime env) (srv, w) = (inr tt, (srv', w'))
       | None => w' = w
       end.
Proof.
  unfold Command.releaseServer.
  destruct (Command.realTimeServer c) as [srv|] eqn:Hsrv.
  - destruct (server_stop_returns srv w) as (srv' & w' & Hstop & _).
    rewrite Hstop. exists w'. split; [reflexivity | now exists srv'].
  - exists w. split; [| reflexivity]. destruct c. cbn in Hsrv. now subst.
Qed.

(** [StartDevCommand.stop] on a command that is running: it never takes
    its [catch] branch.  The terminal it holds is handed to
    [disposeTerminal], and is disposed of unless the editor's [dispose]
    throws; the real-time server is stopped by its own [stop]; both
    references are dropped; the flag, the port and the project type are
    reset; the status bar shows Stopped; the context key is cleared and
    the stopped message shown, and no error message.  A second [stop] only
    shows the nothing-is-running message. *)
Theorem command_stop_releases_and_is_idempotent
    (c : Command.StartDevCommand) (w : World) (ui : list Command.UiEffect) :
  Command.isRunning c = true ->
  exists c' w',
    Command.stop env (c, w, ui)
    = (c', w',
       (ui ++ match Command.currentTerminal c, Command.disposeTerminalError env with
              | Some terminal, None => [Command.DisposeTerminal terminal]
              | _, _ => []
              end
           ++ [Command.SetContext "right-dev.isRunning" false;
               Command.ShowInformationMessage "开发服务器已停止"])%list)
    /\ Command.isRunning c' = false
    /\ Command.currentTerminal c' = None
    /\ Command.realTimeServer c' = None
    /\ Command.currentPort c' = None
    /\ Command.currentProjectType c' = ""
    /\ StatusBar.getStatus (Command.statusBarProvider c') = StatusBar.Stopped
    /\ match Command.realTimeServer c with
       | Some srv => exists srv', stop (Command.runtime env) (srv, w) = (inr tt, (srv', w'))
       | None => w' = w
       end
    /\ forall ui',
         Command.stop env (c', w', ui')
         = (c', w', (ui' ++ [Command.ShowInformationMessage
                               "没有正在运行的开发服务器"])%list).
Proof.
  intros Hrun.
  unfold Command.stop at 1. rewrite Hrun. cbn [negb].
  unfold Command.releaseBoth, Command.releaseTerminal.
  destruct (Command.currentTerminal c) as [terminal|] eqn:Hterm.
  - match goal with |- context [Command.releaseServer env (?c1, ?w1, ?ui1)] =>
      destruct (releaseServer_spec c1 w1 ui1) as (w' & -> & Hw)
    end.
    cbn in Hw. eexists. exists w'. split.
    + unfold Command.disposeTerminal.
      destruct (Command.disposeTerminalError env);
        cbn [Command.currentTerminal]; rewrite <- ?app_assoc; reflexivity.
    + cbn. repeat split; try reflexivity; exact Hw.
  - destruct (releaseServer_spec c w ui) as (w' & -> & Hw).
    eexists. exists w'. split; [reflexivity |].
    cbn. repeat split; auto.
Qed.

(** After [handleError] the command is flagged not running but still
    holds its terminal and its real-time server; a [stop] that follows
    only shows the nothing-is-running message, so the server is left as it
    is; [dispose] is what stops the server and drops both references. *)
Theorem stop_after_handleError_releases_nothing
    (c : Command.StartDevCommand) (w : World) (ui : list Command.UiEffect)
    (errorMessage : string) :
  exists c1 ui1,
    Command.handleError errorMessage (c, w, ui) = (c1, w, ui1)
    /\ Command.isRunning c1 = false
    /\ Command.currentTerminal c1 = Command.currentTerminal c
    /\ Command.realTimeServer c1 = Command.realTimeServer c
    /\ StatusBar.getStatus (Command.statusBarProvider c1) = StatusBar.Error
    /\ Command.stop env (c1, w, ui1)
       = (c1, w, (ui1 ++ [Command.ShowInformationMessage
                            "没有正在运行的开发服务器"])%list)
    /\ exists c2 w2 ui2,
         Command.dispose env (c1, w, ui1) = (None, (c2, w2, ui2))
         /\ Command.currentTerminal c2 = None
         /\ Command.realTimeServer c2 = None
         /\ match Command.realTimeServer c with
            | Some srv =>
                exists srv', stop (Command.runtime env) (srv, w) = (inr tt, (srv', w2))
            | None => w2 = w
            end.
Proof.
  eexists. eexists. split; [reflexivity |].
  cbn [Command.isRunning Command.currentTerminal Command.realTimeServer
       Command.statusBarProvider].
  split; [reflexivity |]. split; [reflexivity |]. split; [reflexivity |].
  split; [apply updateStatus_state |]. split; [reflexivity |].
  unfold Command.dispose, Command.releaseBoth, Command.releaseTerminal.
  cbn [Command.currentTerminal].
  destruct (Command.currentTerminal c) as [terminal|] eqn:Hterm.
  - match goal with |- context [Command.releaseServer env (?c1, ?w1, ?ui1)] =>
      destruct (releaseServer_spec c1 w1 ui1) as (w2 & -> & Hw)
    end.
    cbn in Hw. eexists. exists w2. eexists. split; [reflexivity |].
    cbn. repeat split; auto.
  - match goal with |- context [Command.releaseServer env (?c1, ?w1, ?ui1)] =>
      destruct (releaseServer_spec c1 w1 ui1) as (w2 & -> & Hw)
    end.
    cbn in Hw. eexists. exists w2. eexists. split; [reflexivity |].
    cbn. repeat split; auto.
Qed.

(** [dispose] on a command whose real-time server is not running (its
    [start] failed, say): the reference to the server is dropped and
    nothing in the world is closed, so a watcher the failed [start] left
    watching stays so, now without an owner. *)
Theorem dispose_after_failed_start_closes_nothing
    (c : Command.StartDevCommand) (w : World) (ui : list Command.UiEffect)
    (srv : RealTimeServer) :
  Command.realTimeServer c = Some srv ->
  isRunning srv = false ->
  exists c' ui',
    Command.dispose env (c, w, ui) = (None, (c', w, ui'))
    /\ Command.realTimeServer c' = None
    /\ Command.isRunning c' = false.
Proof.
  intros Hsrv Hrun.
  unfold Command.dispose, Command.releaseBoth, Command.releaseTerminal.
  destruct (Command.currentTerminal c) as [terminal|];
    unfold Command.releaseServer; cbn [Command.realTimeServer]; rewrite Hsrv;
    rewrite (stop_not_running _ _ _ Hrun);
    eexists; eexists; (split; [reflexivity |]); now split.
Qed.

End CommandFacts.

(** ** The command object on concrete states *)

Lemma command_stop_releases_and_is_idempotent_witness :
  exists c' w',
    Command.stop quietEnvironment (runningCommand, snd twoTabs, [])
    = (c', w',
       [Command.DisposeTerminal 7; Command.SetContext "right-dev.isRunning" false;
        Command.ShowInformationMessage "开发服务器已停止"])
    /\ Command.isRunning c' = false
    /\ Command.realTimeServer c' = None.
Proof.
  destruct (command_stop_releases_and_is_idempotent quietEnvironment
              runningCommand (snd twoTabs) [])
    as (c' & w' & Hstop & Hflag & _ & Hsrv & _);
    try (vm_compute; reflexivity).
  exists c', w'. repeat split; assumption.
Defined.

Lemma stop_after_handleError_releases_nothing_witness :
  exists c1 ui1 c2 w2 ui2,
    Command.handleError "boom" (runningCommand, snd twoTabs, []) = (c1, snd twoTabs, ui1)
    /\ Command.realTimeServer c1 = Some (fst twoTabs)
    /\ Command.dispose quietEnvironment (c1, snd twoTabs, ui1) = (None, (c2, w2, ui2))
    /\ Command.realTimeServer c2 = None.
Proof.
  destruct (stop_after_handleError_releases_nothing quietEnvironment
              runningCommand (snd twoTabs) [] "boom")
    as (c1 & ui1 & Hh & _ & _ & Hsrv & _ & _ & Hdisp).
  destruct Hdisp as (c2 & w2 & ui2 & Hd & _ & Hnone & _).
  exists c1, ui1, c2, w2, ui2. repeat split; assumption.
Defined.

Lemma dispose_after_failed_start_closes_nothing_witness :
  exists c' ui',
    Command.dispose quietEnvironment (failedCommand, snd failedStart, [])
    = (None, (c', snd failedStart, ui'))
    /\ Command.realTimeServer c' = None
    /\ watchers (snd failedStart) = [true].
Proof.
  destruct (dispose_after_failed_start_closes_nothing quietEnvironment
              failedCommand (snd failedStart) [] (fst failedStart))
    as (c' & ui' & Hd & Hnone & _);
    try (vm_compute; reflexivity).
  exists c', ui'. split; [exact Hd |]. split; [exact Hnone |]. vm_compute. reflexivity.
Defined.

(** ** From start to reload *)

Section FanOut.

Variable rt : Runtime.

Lemma run_app (evs1 evs2 : list Event) (st : State) :
  run rt (evs1 ++ evs2) st = run rt evs2 (run rt evs1 st).
Proof. unfold run. apply fold_left_app. Qed.

(** [k] connections to server [h], one after the other, on a session
    without clients in a world without sockets. *)
Lemma connections_register_in_order (h : WssHandle) (k : nat) (s : RealTimeServer) (w : World) :
  clients s = [] -> sockets w = [] ->
  clients (fst (run rt (repeat (Connected h) k) (s, w))) = seq 0 k
  /\ sockets (snd (run rt (repeat (Connected h) k) (s, w)))
     = replicate k {| readyState := OPEN; transportUp := true; acceptedBy := h |}
  /\ delivered (snd (run rt (repeat (Connected h) k) (s, w))) = delivered w
  /\ isRunning (fst (run rt (repeat (Connected h) k) (s, w))) = isRunning s.
Proof.
  intros Hc Hs. induction k as [|k IH].
  - cbn. now rewrite Hc, Hs.
  - replace (repeat (Connected h) (S k))
      with (repeat (Connected h) k ++ [Connected h])%list
      by (rewrite <- repeat_cons; reflexivity).
    rewrite run_app.
    destruct (run rt (repeat (Connected h) k) (s, w)) as [s1 w1].
    cbn [fst snd] in IH. destruct IH as (IHc & IHs & IHd & IHr).
    cbn [run fold_left step onConnection bind getWorld setWorld getThis setThis ret
         fst snd clients setClients sockets withSockets delivered isRunning].
    rewrite IHc, IHs, IHd, IHr, length_replicate.
    split; [| split; [| split; reflexivity]].
    + unfold setAdd. case_bool_decide as Hin.
      * apply list_elem_of_In, in_seq in Hin. lia.
      * now rewrite seq_S.
    + rewrite replicate_S_end. reflexivity.
Qed.

Lemma receivers_all_open (h : WssHandle) (n : nat) (w : World) :
  sockets w = replicate n {| readyState := OPEN; transportUp := true; acceptedBy := h |} ->
  receivers w (seq 0 n) = seq 0 n.
Proof.
  intros Hs. unfold receivers.
  rewrite forallb_filter_id; [reflexivity |].
  apply forallb_forall. intros c Hc. apply in_seq in Hc.
  unfold isOpen, carries, Lib.readyStateOf. rewrite Hs.
  rewrite lookup_replicate_2 by lia. reflexivity.
Qed.

(** Fan-out: a session is started on a fresh object in an empty world
    (the watcher starts, the port is in range, the bind is granted), [n]
    browser tabs connect, and a watched file changes: exactly [n] reload
    frames are delivered, one to each tab, in the order the tabs
    connected. *)
Theorem change_reaches_every_connected_tab
    (root : string) (p : N) (entry : string) (actualPort : N) (n : nat)
    (filePath : string) :
  watchError rt = None ->
  (65535 <? p)%N = false ->
  bindPort rt p = BindOk actualPort ->
  delivered (snd (run rt ([CallStart; BindOutcome 0] ++ repeat (Connected 0) n
                          ++ [FileChanged filePath])
                    (newRealTimeServer root p entry, emptyWorld)))
  = reloadsFor (seq 0 n)
  /\ isRunning (fst (run rt ([CallStart; BindOutcome 0] ++ repeat (Connected 0) n
                             ++ [FileChanged filePath])
                       (newRealTimeServer root p entry, emptyWorld))) = true.
Proof.
  intros Hwatch Hport Hbind.
  rewrite !run_app.
  assert (Hstart : run rt [CallStart; BindOutcome 0] (newRealTimeServer root p entry, emptyWorld)
                   = snd (start rt (newRealTimeServer root p entry, emptyWorld))).
  { cbn [run fold_left step]. unfold start.
    rewrite (startSetup_spec rt (newRealTimeServer root p entry) emptyWorld eq_refl).
    cbv zeta. cbn [port newRealTimeServer]. rewrite Hwatch, Hport. cbn [snd].
    now destruct (listenEvent rt _ _) as [[e|o] st]. }
  rewrite Hstart.
  rewrite (start_not_running rt (newRealTimeServer root p entry) emptyWorld eq_refl).
  cbv zeta. cbn [port newRealTimeServer]. rewrite Hwatch, Hport, Hbind. cbn [snd].
  match goal with |- context [run rt (repeat (Connected 0) n) (?s1, ?w1)] =>
    destruct (connections_register_in_order 0 n s1 w1 eq_refl eq_refl)
      as (Hc & Hs & Hd & Hr);
    destruct (run rt (repeat (Connected 0) n) (s1, w1)) as [s2 w2]
  end.
  cbn [fst snd] in Hc, Hs, Hd, Hr.
  cbn [run fold_left step]. unfold onChange, broadcastReload, bind, getThis.
  cbn [fst snd]. rewrite forEachClient_spec. cbn [fst snd delivered].
  rewrite Hc, Hd, (receivers_all_open 0 n w2 Hs).
  split; [reflexivity | exact Hr].
Qed.

End FanOut.

Lemma change_reaches_every_connected_tab_witness :
  delivered (snd (run nodeRuntime
                    ([CallStart; BindOutcome 0] ++ repeat (Connected 0) 3
                     ++ [FileChanged "/srv/app/index.html"])
                    (newRealTimeServer "/srv/app" 0 "index.html", emptyWorld)))
  = reloadsFor (seq 0 3).
Proof.
  refine (proj1 (change_reaches_every_connected_tab nodeRuntime "/srv/app" 0
                   "index.html" 49152 3 "/srv/app/index.html" _ _ _));
    vm_compute; reflexivity.
Defined.

(** ** Path helpers *)

Section PathUtilsFacts.

Lemma replaceChar_removes (from to : ascii) (s : string) :
  from <> to -> Text.hasChar from (PathUtils.replaceChar from to s) = false.
Proof.
  intros Hne. induction s as [|c s IH]; [reflexivity |].
  cbn [PathUtils.replaceChar]. rewrite hasChar_cons, IH, orb_false_r.
  destruct (Ascii.eqb c from) eqn:E.
  - apply Ascii.eqb_neq. exact Hne.
  - rewrite Ascii.eqb_sym. exact E.
Qed.

Lemma replaceChar_absent (from to : ascii) (s : string) :
  Text.hasChar from s = false -> PathUtils.replaceChar from to s = s.
Proof.
  induction s as [|c s IH]; intros H; [reflexivity |].
  rewrite hasChar_cons in H. apply orb_false_iff in H as [Hc Hs].
  cbn [PathUtils.replaceChar]. rewrite Ascii.eqb_sym, Hc, (IH Hs). reflexivity.
Qed.

Lemma hasChar_of_list (c : ascii) (l1 l2 : list ascii) :
  Text.hasChar c (string_of_list_ascii (l1 ++ l2))
  = Text.hasChar c (string_of_list_ascii l1) || Text.hasChar c (string_of_list_ascii l2).
Proof.
  induction l1 as [|x l1 IH]; [reflexivity |].
  cbn [app string_of_list_ascii]. rewrite !hasChar_cons, IH. apply orb_assoc.
Qed.

Lemma segmentsFrom_chars (c : ascii) (current : list ascii) (s : string) :
  Text.hasChar c (string_of_list_ascii (rev current)) = false ->
  Text.hasChar c s = false ->
  forallb (fun seg => negb (Text.hasChar c seg)) (Path.segmentsFrom current s) = true.
Proof.
  revert current; induction s as [|x s IH]; intros current Hcur Hs.
  - cbn [Path.segmentsFrom forallb]. now rewrite Hcur.
  - rewrite hasChar_cons in Hs. apply orb_false_iff in Hs as [Hx Hs].
    rewrite segmentsFrom_cons. destruct (Ascii.eqb x "/").
    + cbn [forallb]. rewrite Hcur. cbn [negb andb]. now apply IH.
    + apply IH; [| exact Hs]. cbn [rev]. rewrite hasChar_of_list, Hcur.
      cbn [string_of_list_ascii]. rewrite hasChar_cons, Hx. reflexivity.
Qed.

Lemma normalizeSegments_chars (c : ascii) (allow : bool) (res segs : list string) :
  Text.hasChar c ".." = false ->
  forallb (fun seg => negb (Text.hasChar c seg)) res = true ->
  forallb (fun seg => negb (Text.hasChar c seg)) segs = true ->
  forallb (fun seg => negb (Text.hasChar c seg))
          (Path.normalizeSegments allow res segs) = true.
Proof.
  intros Hdots. revert res; induction segs as [|seg segs IH]; intros res Hres Hsegs.
  - cbn [Path.normalizeSegments]. rewrite forallb_forall in *.
    intros x Hx. apply Hres. now apply in_rev.
  - cbn [forallb] in Hsegs. apply andb_true_iff in Hsegs as [Hseg Hsegs].
    cbn [Path.normalizeSegments].
    destruct (String.eqb seg "" || String.eqb seg "."); [now apply IH |].
    destruct (String.eqb seg "..").
    + destruct res as [|top res'].
      * apply IH; [| exact Hsegs]. destruct allow; [| reflexivity].
        cbn [forallb]. now rewrite Hdots.
      * cbn [forallb] in Hres. apply andb_true_iff in Hres as [Htop Hres'].
        destruct (String.eqb top "..").
        -- apply IH; [| exact Hsegs]. destruct allow.
           ++ cbn [forallb]. now rewrite Hdots, Htop, Hres'.
           ++ cbn [forallb]. now rewrite Htop, Hres'.
        -- now apply IH.
    + apply IH; [| exact Hsegs]. cbn [forallb]. now rewrite Hseg, Hres.
Qed.

Lemma joinSegments_chars (c : ascii) (segs : list string) :
  Text.hasChar c "/" = false ->
  forallb (fun seg => negb (Text.hasChar c seg)) segs = true ->
  Text.hasChar c (Path.joinSegments segs) = false.
Proof.
  intros Hslash. induction segs as [|x segs IH]; intros H; [reflexivity |].
  cbn [forallb] in H. apply andb_true_iff in H as [Hx H].
  apply negb_true_iff in Hx.
  destruct segs as [|y segs]; [exact Hx |].
  change (Path.joinSegments (x :: y :: segs))
    with (x ++ "/" ++ Path.joinSegments (y :: segs)).
  rewrite !hasChar_append, Hx, Hslash, (IH H). reflexivity.
Qed.

(** [path.normalize] brings in no character but slashes and dots. *)
Lemma normalize_chars (c : ascii) (p : string) :
  Text.hasChar c "/" = false -> Text.hasChar c "." = false ->
  Text.hasChar c p = false -> Text.hasChar c (Path.normalize p) = false.
Proof.
  intros Hslash Hdot Hp. unfold Path.normalize.
  assert (Hdots : Text.hasChar c ".." = false).
  { change ".." with ("." ++ "."). now rewrite hasChar_append, Hdot. }
  assert (Hbody : Text.hasChar c
            (Path.joinSegments
               (Path.normalizeSegments (negb (String.prefix "/" p)) [] (Path.segments p)))
            = false).
  { apply joinSegments_chars; [exact Hslash |].
    apply normalizeSegments_chars; [exact Hdots | reflexivity |].
    now apply segmentsFrom_chars. }
  destruct (String.eqb p ""); [exact Hdot |].
  destruct (String.eqb _ "").
  - destruct (String.prefix "/" p); [exact Hslash |].
    destruct (Text.endsWithSlash p); [| exact Hdot].
    change "./" with ("." ++ "/"). now rewrite hasChar_append, Hdot, Hslash.
  - rewrite !hasChar_append, Hbody.
    destruct (String.prefix "/" p), (Text.endsWithSlash p);
      rewrite ?Hslash; reflexivity.
Qed.

(** [normalizeFilePath] returns a path without backslash; on a path
    without backslash it returns what [path.normalize] returns. *)
Theorem normalizeFilePath_has_no_backslash (filePath : string) :
  Text.hasChar "\" (PathUtils.normalizeFilePath filePath) = false
  /\ (Text.hasChar "\" filePath = false ->
      PathUtils.normalizeFilePath filePath = Path.normalize filePath).
Proof.
  split.
  - unfold PathUtils.normalizeFilePath. apply replaceChar_removes. discriminate.
  - intros H. unfold PathUtils.normalizeFilePath. apply replaceChar_absent.
    now apply normalize_chars.
Qed.

Lemma anyChar_of_hasChar (c : ascii) (f : ascii -> bool) (s : string) :
  f c = true -> Text.hasChar c s = true -> Mime.anyChar f s = true.
Proof.
  intros Hf. induction s as [|d s IH]; intros H; [discriminate |].
  rewrite hasChar_cons in H. cbn [Mime.anyChar].
  apply orb_true_iff in H as [H | H].
  - apply Ascii.eqb_eq in H. subst d. now rewrite Hf.
  - rewrite (IH H). apply orb_true_r.
Qed.

(** [escapePathForTerminal] wraps in single quotes, with its text
    unchanged, every path that starts with a slash and every path that
    holds a single quote; an embedded quote is not escaped. *)
Theorem escapePathForTerminal_quotes_verbatim (filePath : string) :
  String.prefix "/" filePath = true \/ Text.hasChar "'" filePath = true ->
  PathUtils.hasSpecialCharacters filePath = true
  /\ PathUtils.escapePathForTerminal filePath = "'" ++ filePath ++ "'".
Proof.
  intros H.
  assert (Hs : PathUtils.hasSpecialCharacters filePath = true).
  { destruct H as [H | H].
    - apply prefix_inv in H as [rest ->]. reflexivity.
    - now apply (anyChar_of_hasChar "'"). }
  split; [exact Hs |]. unfold PathUtils.escapePathForTerminal. now rewrite Hs.
Qed.

End PathUtilsFacts.

Lemma escapePathForTerminal_quotes_verbatim_witness :
  PathUtils.escapePathForTerminal "it's" = "'it's'".
Proof.
  refine (proj2 (escapePathForTerminal_quotes_verbatim "it's" _)).
  right. reflexivity.
Defined.

Lemma normalizeFilePath_has_no_backslash_witness :
  PathUtils.normalizeFilePath "/srv//app/./site/../index.html" = "/srv/app/index.html".
Proof.
  rewrite (proj2 (normalizeFilePath_has_no_backslash "/srv//app/./site/../index.html")).
  - vm_compute. reflexivity.
  - vm_compute. reflexivity.
Defined.

(** ** The responder and the life cycle *)

Section StatelessResponder.

Variable rt : Runtime.
Variable types : gmap string string.
Variable fs : FileSystem.

Lemma handleRequest_configuration (s1 s2 : RealTimeServer) (url : option string) :
  rootPath s1 = rootPath s2 -> port s1 = port s2 -> entryFile s1 = entryFile s2 ->
  handleRequest types fs s1 url = handleRequest types fs s2 url.
Proof.
  intros Hroot Hport Hentry.
  unfold handleRequest, sendFile, requestPath, getWebSocketClientScript.
  now rewrite Hroot, Hport, Hentry.
Qed.

(** The responder keeps no state of its own: whatever calls and events
    happen in between (connections, broadcasts, [start], [stop]), a
    request on the same disk gets the same response, script included. *)
Theorem responses_do_not_depend_on_events
    (evs : list Event) (st : State) (url : option string) :
  handleRequest types fs (fst (run rt evs st)) url = handleRequest types fs (fst st) url.
Proof.
  assert (Hcfg : rootPath (fst (run rt evs st)) = rootPath (fst st)
                 /\ port (fst (run rt evs st)) = port (fst st)
                 /\ entryFile (fst (run rt evs st)) = entryFile (fst st)).
  { revert st; induction evs as [|ev evs IH]; intros st; [cbn; auto |].
    change (run rt (ev :: evs) st) with (run rt evs (step rt ev st)).
    destruct (IH (step rt ev st)) as (H1 & H2 & H3).
    destruct (step_object rt ev st) as (G1 & G2 & G3 & _).
    rewrite H1, H2, H3, G1, G2, G3. auto. }
  destruct Hcfg as (H1 & H2 & H3). now apply handleRequest_configuration.
Qed.

End StatelessResponder.
